(** * fo-sdk: webhook verification, tool construction and the tool handler

    A shallow embedding of [src/webhook.ts] ([verifyWebhook],
    [createToolHandler], [getHeader], [sendJson]), [src/testing.ts]
    ([signWebhookPayload]) and [src/defineTool.ts] ([defineTool]), together
    with the parts of the JavaScript platform they call ([parseInt],
    [Number.prototype.toString], [String.prototype.trim], UTF-8 encoding of
    strings by [Buffer.from] and [Hmac.update] and decoding by
    [buf.toString], HMAC-SHA256, [JSON.parse], property lookup on
    [process.env], [writeHead]).

    Conventions.
    - A JavaScript string is the list of its UTF-16 code units ([jsstring]).
    - A [Buffer] is the list of its bytes.
    - JavaScript numbers that hold integers (timestamps, milliseconds,
      statuses) are [Z].  [Date.now()] is an integer of magnitude at most
      8.64e15, below 2^53, so the arithmetic of the source on it is exact.
      The product [ts * 1000] is rounded only when its magnitude is 2^53
      or more, and then it lies, rounded or exact, more than 3e14 away from
      every clock value, on one side of the acceptance window.
    - The request headers are a finite map from strings.  [process.env] is
      the finite map of the variables that are set; a property of it is read
      through [process_env_get], which also finds the properties every
      object inherits; names are compared exactly, as on a POSIX system.
      The [env] object built from it is the finite map of its own
      properties.
    - A run of the handler is described for a body stream that ends or
      fails and a call of [execute] that settles. *)

From Stdlib Require Import ZArith NArith Lia List Bool String Ascii.
From stdpp Require Import base option list gmap numbers.

Local Open Scope N_scope.
#[local] Set Warnings "-register-all".

(* ------------------------------------------------------------------ *)
(** ** JavaScript strings *)

(** UTF-16 code units, each below 65536. *)
Abbreviation jsstring := (list N) (only parsing).

(** The code units of an ASCII literal. *)
Definition str (s : string) : jsstring :=
  map N_of_ascii (list_ascii_of_string s).
Arguments str _%_string.

(** The double quote, U+0022. *)
Definition dquote : N := 34.

(** The code units of an ASCII literal in which an apostrophe stands for
    a double quote, for writing JSON text. *)
Definition strq (s : string) : jsstring :=
  map (fun c => if c =? 39 then dquote else c) (str s).
Arguments strq _%_string.

(** ECMAScript [WhiteSpace] and [LineTerminator] code points, the set
    stripped by [String.prototype.trim] and skipped by [parseInt]. *)
Definition isWhiteSpace (c : N) : bool :=
  (c =? 9) || (c =? 10) || (c =? 11) || (c =? 12) || (c =? 13) || (c =? 32)
  || (c =? 160) || (c =? 5760) || ((8192 <=? c) && (c <=? 8202))
  || (c =? 8232) || (c =? 8233) || (c =? 8239) || (c =? 8287)
  || (c =? 12288) || (c =? 65279).

Fixpoint trimStart (s : jsstring) : jsstring :=
  match s with
  | c :: r => if isWhiteSpace c then trimStart r else s
  | [] => []
  end.

Definition trimEnd (s : jsstring) : jsstring := rev (trimStart (rev s)).

(** [String.prototype.trim]. *)
Definition trim (s : jsstring) : jsstring := trimEnd (trimStart s).

Definition isDigit (c : N) : bool := (48 <=? c) && (c <=? 57).

(** The longest prefix of decimal digits. *)
Fixpoint digitPrefix (s : jsstring) : jsstring :=
  match s with
  | c :: r => if isDigit c then c :: digitPrefix r else []
  | [] => []
  end.

(** The integer a string of decimal digits denotes, most significant
    digit first, continuing from [acc]. *)
Fixpoint mathInt (acc : Z) (digits : jsstring) : Z :=
  match digits with
  | c :: r => mathInt (acc * 10 + (Z.of_N c - 48)) r
  | [] => acc
  end.

(** [parseInt(s, 10)]: skip leading white space, read an optional sign,
    then the longest run of decimal digits; [None] is [NaN]. *)
Definition parseInt (s : jsstring) : option Z :=
  let s1 := trimStart s in
  let sign : Z := match s1 with 45 :: _ => (-1)%Z | _ => 1%Z end in
  let s2 := match s1 with
            | c :: r => if (c =? 43) || (c =? 45) then r else s1
            | [] => s1
            end in
  match digitPrefix s2 with
  | [] => None
  | d :: ds => Some (sign * mathInt 0 (d :: ds))%Z
  end.

(** [s] is white space, then an optional sign, then a decimal digit,
    then anything: the strings [parseInt] reads a number from. *)
Definition hasIntegerPrefix (s : jsstring) : Prop :=
  exists (ws sgn : list N) (d : N) (rest : list N),
    s = ws ++ sgn ++ d :: rest
    /\ forallb isWhiteSpace ws = true
    /\ (sgn = [] \/ sgn = [43] \/ sgn = [45])
    /\ isDigit d = true.

(** Decimal digits of [n], most significant first, pushed in front of
    [acc]; [fuel] bounds the number of digits. *)
Fixpoint digitsOf (fuel : nat) (n : N) (acc : jsstring) : jsstring :=
  match fuel with
  | O => acc
  | S f =>
      let acc' := (48 + n mod 10) :: acc in
      if n / 10 =? 0 then acc' else digitsOf f (n / 10) acc'
  end.

(** [Number.prototype.toString()] on an integer (plain decimal notation,
    which JavaScript uses for every integer of magnitude below 1e21). *)
Definition Number_toString (n : Z) : jsstring :=
  let a := Z.abs_N n in
  let ds := digitsOf (S (N.to_nat (N.size a))) a [] in
  if (n <? 0)%Z then 45 :: ds else ds.

(** A string used as a condition: [undefined] and the empty string are
    falsy. *)
Definition truthy (v : option jsstring) : option jsstring :=
  match v with
  | Some (c :: r) => Some (c :: r)
  | _ => None
  end.

(* ------------------------------------------------------------------ *)
(** ** Buffers: UTF-8 encoding of a string *)

(** A code unit that is its own UTF-8 encoding. *)
Definition isAscii (c : N) : Prop := c < 128.

Definition isHighSurrogate (c : N) : bool := (55296 <=? c) && (c <=? 56319).
Definition isLowSurrogate (c : N) : bool := (56320 <=? c) && (c <=? 57343).

(** UTF-8 bytes of one code point below 0x110000. *)
Definition utf8_codepoint (c : N) : list N :=
  if c <? 128 then [c]
  else if c <? 2048 then [192 + c / 64; 128 + c mod 64]
  else if c <? 65536 then
    [224 + c / 4096; 128 + (c / 64) mod 64; 128 + c mod 64]
  else [240 + c / 262144; 128 + (c / 4096) mod 64;
        128 + (c / 64) mod 64; 128 + c mod 64].

(** [Buffer.from(s, 'utf8')], also the bytes [Hmac.update(s)] hashes: a
    surrogate pair is one code point, and a surrogate that is not part of
    a pair is encoded as U+FFFD. *)
Fixpoint Buffer_from_utf8 (s : jsstring) : list N :=
  match s with
  | [] => []
  | c :: r =>
      if isHighSurrogate c then
        match r with
        | d :: r' =>
            if isLowSurrogate d
            then utf8_codepoint (65536 + (c - 55296) * 1024 + (d - 56320))
                   ++ Buffer_from_utf8 r'
            else [239; 191; 189] ++ Buffer_from_utf8 r
        | [] => [239; 191; 189]
        end
      else if isLowSurrogate c then [239; 191; 189] ++ Buffer_from_utf8 r
      else utf8_codepoint c ++ Buffer_from_utf8 r
  end.

(** The code units of a code point. *)
Definition utf16_units (c : N) : jsstring :=
  if c <? 65536 then [c]
  else [55296 + (c - 65536) / 1024; 56320 + (c - 65536) mod 1024].

(** The first byte of a sequence: the code units it stands for by
    itself (U+FFFD when no sequence starts with it), or the bits it
    contributes, the number of bytes that must follow, and the bounds of
    the next one. *)
Definition utf8_lead (b : N) : jsstring + (N * nat * N * N) :=
  if b <? 128 then inl [b]
  else if (194 <=? b) && (b <=? 223) then inr (b mod 32, 1%nat, 128, 191)
  else if (224 <=? b) && (b <=? 239) then
    inr (b mod 16, 2%nat, if b =? 224 then 160 else 128,
         if b =? 237 then 159 else 191)
  else if (240 <=? b) && (b <=? 244) then
    inr (b mod 8, 3%nat, if b =? 240 then 144 else 128,
         if b =? 244 then 143 else 191)
  else inl [65533].

(** UTF-8 decoding as [buf.toString('utf8')] does it: [pending] is the
    sequence under way.  A byte that cannot continue it ends it as one
    U+FFFD and is then read as a first byte; so does the end of the
    input. *)
Fixpoint utf8_decode (bs : list N) (pending : option (N * nat * N * N))
  : jsstring :=
  match bs with
  | [] => match pending with None => [] | Some _ => [65533] end
  | b :: r =>
      let start :=
        match utf8_lead b with
        | inl units => units ++ utf8_decode r None
        | inr opened => utf8_decode r (Some opened)
        end in
      match pending with
      | None => start
      | Some (bits, following, lower, upper) =>
          if (lower <=? b) && (b <=? upper) then
            let bits := bits * 64 + b mod 64 in
            match following with
            | S (S n) => utf8_decode r (Some (bits, S n, 128, 191))
            | _ => utf16_units bits ++ utf8_decode r None
            end
          else 65533 :: start
      end
  end.

(** [buf.toString('utf8')]. *)
Definition Buffer_toString_utf8 (bs : list N) : jsstring := utf8_decode bs None.

(* ------------------------------------------------------------------ *)
(** ** SHA-256 (FIPS 180-4) and HMAC (RFC 2104), as node:crypto provides *)

Definition two32 : N := 4294967296.
Definition add32 (x y : N) : N := (x + y) mod two32.
Definition not32 (x : N) : N := N.lxor x 4294967295.
Definition rotr (n x : N) : N :=
  N.lor (N.shiftr x n) ((N.shiftl x (32 - n)) mod two32).

Definition Ch (x y z : N) : N := N.lxor (N.land x y) (N.land (not32 x) z).
Definition Maj (x y z : N) : N :=
  N.lxor (N.lxor (N.land x y) (N.land x z)) (N.land y z).
Definition bigSigma0 (x : N) : N :=
  N.lxor (N.lxor (rotr 2 x) (rotr 13 x)) (rotr 22 x).
Definition bigSigma1 (x : N) : N :=
  N.lxor (N.lxor (rotr 6 x) (rotr 11 x)) (rotr 25 x).
Definition smallSigma0 (x : N) : N :=
  N.lxor (N.lxor (rotr 7 x) (rotr 18 x)) (N.shiftr x 3).
Definition smallSigma1 (x : N) : N :=
  N.lxor (N.lxor (rotr 17 x) (rotr 19 x)) (N.shiftr x 10).

Definition isPrime (n : N) : bool :=
  (1 <? n)
  && forallb (fun d => negb (n mod d =? 0))
             (map N.of_nat (seq 2 (N.to_nat n - 2))).

(** The first [k] primes (for [k] up to 64: they are below 312). *)
Definition first_primes (k : nat) : list N :=
  firstn k (filter isPrime (map N.of_nat (seq 2 310))).

(** The largest [r] below [2 ^ bits] with [r ^ e <= n], from [r = 0],
    one bit at a time. *)
Fixpoint iroot (e n : N) (bits : nat) (r : N) : N :=
  match bits with
  | O => r
  | S b =>
      let r' := r + 2 ^ N.of_nat b in
      iroot e n b (if r' ^ e <=? n then r' else r)
  end.

(** The first 32 bits of the fractional part of the [e]-th root of [p]. *)
Definition frac_root32 (e p : N) : N :=
  iroot e (p * 2 ^ (32 * e)) 40 0 mod two32.

(** The round constants: from the cube roots of the first 64 primes. *)
Definition sha256_K : list N :=
  Eval vm_compute in map (frac_root32 3) (first_primes 64).

(** The initial hash value: from the square roots of the first 8 primes. *)
Definition sha256_H0 : list N :=
  Eval vm_compute in map (frac_root32 2) (first_primes 8).

(** Big-endian bytes of [x], [n] of them. *)
Fixpoint be_bytes (n : nat) (x : N) : list N :=
  match n with
  | O => []
  | S k => be_bytes k (x / 256) ++ [x mod 256]
  end.

(** The message followed by the bit 1, zeros, and its length in bits on
    eight bytes, a multiple of 64 bytes in all. *)
Definition sha256_pad (msg : list N) : list N :=
  let len := N.of_nat (length msg) in
  let zeros := N.to_nat ((119 - len mod 64) mod 64) in
  msg ++ [128] ++ repeat 0 zeros ++ be_bytes 8 (8 * len).

(** Big-endian 32-bit words of a byte list. *)
Fixpoint be_words (fuel : nat) (bs : list N) : list N :=
  match fuel, bs with
  | S f, b0 :: b1 :: b2 :: b3 :: r =>
      (((b0 * 256 + b1) * 256 + b2) * 256 + b3) :: be_words f r
  | _, _ => []
  end.

(** The message schedule, most recent word first; [w] starts as the
    sixteen words of the block reversed. *)
Fixpoint sha256_schedule (n : nat) (w : list N) : list N :=
  match n with
  | O => w
  | S k =>
      let x := add32 (add32 (smallSigma1 (nth 1 w 0)) (nth 6 w 0))
                     (add32 (smallSigma0 (nth 14 w 0)) (nth 15 w 0)) in
      sha256_schedule k (x :: w)
  end.

Record sha256_state : Type := mkState {
  st_a : N; st_b : N; st_c : N; st_d : N;
  st_e : N; st_f : N; st_g : N; st_h : N }.

Definition sha256_round (s : sha256_state) (kw : N * N) : sha256_state :=
  let t1 := add32 (add32 (add32 (st_h s) (bigSigma1 (st_e s)))
                         (add32 (Ch (st_e s) (st_f s) (st_g s)) (fst kw)))
                  (snd kw) in
  let t2 := add32 (bigSigma0 (st_a s)) (Maj (st_a s) (st_b s) (st_c s)) in
  mkState (add32 t1 t2) (st_a s) (st_b s) (st_c s)
          (add32 (st_d s) t1) (st_e s) (st_f s) (st_g s).

Definition state_of (h : list N) : sha256_state :=
  mkState (nth 0 h 0) (nth 1 h 0) (nth 2 h 0) (nth 3 h 0)
          (nth 4 h 0) (nth 5 h 0) (nth 6 h 0) (nth 7 h 0).

Definition sha256_compress (h : list N) (block : list N) : list N :=
  let w := rev (sha256_schedule 48 (rev (be_words 16 block))) in
  let s := fold_left sha256_round (combine sha256_K w) (state_of h) in
  [ add32 (nth 0 h 0) (st_a s); add32 (nth 1 h 0) (st_b s);
    add32 (nth 2 h 0) (st_c s); add32 (nth 3 h 0) (st_d s);
    add32 (nth 4 h 0) (st_e s); add32 (nth 5 h 0) (st_f s);
    add32 (nth 6 h 0) (st_g s); add32 (nth 7 h 0) (st_h s) ].

Fixpoint sha256_blocks (fuel : nat) (h : list N) (bs : list N) : list N :=
  match fuel, bs with
  | S f, _ :: _ => sha256_blocks f (sha256_compress h (firstn 64 bs)) (skipn 64 bs)
  | _, _ => h
  end.

(** The 32 bytes of the digest. *)
Definition sha256 (msg : list N) : list N :=
  let p := sha256_pad msg in
  flat_map (be_bytes 4) (sha256_blocks (length p) sha256_H0 p).

Definition hmac_block_key (key : list N) : list N :=
  let k := if 64 <? N.of_nat (length key) then sha256 key else key in
  k ++ repeat 0 (64 - length k)%nat.

Definition hmac_sha256 (key msg : list N) : list N :=
  let k := hmac_block_key key in
  sha256 (map (N.lxor 0x5c) k ++ sha256 (map (N.lxor 0x36) k ++ msg)).

Definition hexDigit (n : N) : N := if n <? 10 then 48 + n else 87 + n.

(** [digest('hex')]: two lower-case hexadecimal digits per byte. *)
Definition hex (bs : list N) : jsstring :=
  flat_map (fun b => [hexDigit (b / 16); hexDigit (b mod 16)]) bs.

(** [createHmac('sha256', secret).update(payload).digest('hex')]. *)
Definition createHmac_sha256_hex (secret payload : jsstring) : jsstring :=
  hex (hmac_sha256 (Buffer_from_utf8 secret) (Buffer_from_utf8 payload)).

(* ------------------------------------------------------------------ *)
(** ** Exceptions *)

Inductive JsError : Type :=
  | WebhookVerificationError (message : jsstring)
  | Error (message : jsstring)
  | TypeError (message : jsstring)
  | RangeError (message : jsstring).

(** How a call completes: with a value, or by throwing. *)
Inductive Completion (A : Type) : Type :=
  | Normal (a : A)
  | Throw (e : JsError).
Arguments Normal {A} a.
Arguments Throw {A} e.

(** The [message] of an error. *)
Definition errorMessage (e : JsError) : jsstring :=
  match e with
  | WebhookVerificationError m | Error m | TypeError m | RangeError m => m
  end.

(** [JSON.stringify] on the values of a type: the error it throws on a
    value it cannot serialise (a [TypeError] on a [BigInt] or on a cyclic
    object), or [None] when it returns the text. *)
Class JSONStringify (A : Type) : Type := stringifyThrows : A -> option JsError.

(* ------------------------------------------------------------------ *)
(** ** webhook.ts: verifyWebhook *)

(** Webhook calls older than this are rejected: 5 * 60 * 1000. *)
Definition TIMESTAMP_TOLERANCE_MS : Z := 5 * 60 * 1000.

(** A header value: [string | string[]]; [undefined] is an absent key. *)
Inductive HeaderValue : Type :=
  | HString (s : jsstring)
  | HArray (l : list jsstring).

(** [Array.isArray(val) ? val[0] : val]. *)
Definition getHeader (headers : gmap (list N) HeaderValue) (name : jsstring)
  : option jsstring :=
  match headers !! name with
  | Some (HArray l) => head l
  | Some (HString s) => Some s
  | None => None
  end.

(** The four messages [verifyWebhook] throws with, named after the causes
    of the specification. *)
Definition MissingSignatureHeader : JsError :=
  WebhookVerificationError (str "Missing x-fo-signature header").
Definition MissingTimestampHeader : JsError :=
  WebhookVerificationError (str "Missing x-fo-timestamp header").
Definition InvalidTimestamp : JsError :=
  WebhookVerificationError (str "Invalid x-fo-timestamp header").
Definition StaleOrFutureTimestamp : JsError :=
  WebhookVerificationError
    (str "Webhook timestamp is too old or too far in the future. "
     ++ str "Check that your server clock is synchronized.").
Definition InvalidSignature : JsError :=
  WebhookVerificationError (str "Invalid webhook signature").

(** [crypto.timingSafeEqual]: throws on buffers of different lengths,
    otherwise accumulates the differences of all bytes. *)
Definition timingSafeEqual (a b : list N) : Completion bool :=
  if Nat.eqb (length a) (length b)
  then Normal (fold_left (fun acc xy => N.lor acc (N.lxor (fst xy) (snd xy)))
                         (combine a b) 0 =? 0)
  else Throw (RangeError (str "Input buffers must have the same byte length")).

(** [verifyWebhook(body, headers, secret)], with [now] the value of
    [Date.now()]. *)
Definition verifyWebhook (now : Z) (body : jsstring)
    (headers : gmap (list N) HeaderValue) (secret : jsstring)
  : Completion unit :=
  let signature := getHeader headers (str "x-fo-signature") in
  let timestamp := getHeader headers (str "x-fo-timestamp") in
  match truthy signature with
  | None => Throw MissingSignatureHeader
  | Some signature =>
  match truthy timestamp with
  | None => Throw MissingTimestampHeader
  | Some timestamp =>
  match parseInt timestamp with
  | None => Throw InvalidTimestamp
  | Some ts =>
      let ageMs := (now - ts * 1000)%Z in
      if (ageMs >? TIMESTAMP_TOLERANCE_MS)%Z || (ageMs <? -60000)%Z
      then Throw StaleOrFutureTimestamp
      else
        let payload := timestamp ++ str "." ++ body in
        let expectedHex := createHmac_sha256_hex secret payload in
        let expected := Buffer_from_utf8 (str "sha256=" ++ expectedHex) in
        let received := Buffer_from_utf8 signature in
        if negb (Nat.eqb (length expected) (length received))
        then Throw InvalidSignature
        else match timingSafeEqual expected received with
             | Normal true => Normal tt
             | Normal false => Throw InvalidSignature
             | Throw e => Throw e
             end
  end end end.

(* ------------------------------------------------------------------ *)
(** ** testing.ts: signWebhookPayload *)

Record SignedPayload : Type := {
  signature : jsstring;
  timestamp : jsstring }.

(** [signWebhookPayload(body, secret)] at [Date.now() = now]. *)
Definition signWebhookPayload (now : Z) (body secret : jsstring)
  : SignedPayload :=
  let timestamp := Number_toString (now / 1000)%Z in
  let signature :=
    str "sha256=" ++ createHmac_sha256_hex secret (timestamp ++ str "." ++ body) in
  {| signature := signature; timestamp := timestamp |}.

(** The headers object [{'x-fo-signature': ..., 'x-fo-timestamp': ...}]. *)
Definition signedHeaders (sp : SignedPayload) : gmap (list N) HeaderValue :=
  <[str "x-fo-signature" := HString (signature sp)]>
    (<[str "x-fo-timestamp" := HString (timestamp sp)]> ∅).

(* ------------------------------------------------------------------ *)
(** ** JSON values and JSON.parse *)

(** A number keeps the text of its literal; nothing here computes with
    it.  The members of an object are in source order, and a later member
    overrides an earlier one of the same name. *)
Inductive json : Type :=
  | JNull
  | JBool (b : bool)
  | JNumber (literal : jsstring)
  | JString (s : jsstring)
  | JArray (items : list json)
  | JObject (members : list (list N * json)).

Definition isJsonWs (c : N) : bool :=
  (c =? 32) || (c =? 9) || (c =? 10) || (c =? 13).

Fixpoint skipWs (s : jsstring) : jsstring :=
  match s with
  | c :: r => if isJsonWs c then skipWs r else s
  | [] => []
  end.

Definition hexValue (c : N) : option N :=
  if isDigit c then Some (c - 48)
  else if (97 <=? c) && (c <=? 102) then Some (c - 87)
  else if (65 <=? c) && (c <=? 70) then Some (c - 55)
  else None.

(** The characters of a string literal after its opening quote, up to the
    closing quote; [acc] holds what was read, last first. *)
Fixpoint parseStringBody (s : jsstring) (acc : jsstring)
  : option (list N * list N) :=
  match s with
  | [] => None
  | c :: r =>
      if c =? 34 then Some (rev acc, r)
      else if c =? 92 then
        match r with
        | [] => None
        | e :: r1 =>
            if e =? 34 then parseStringBody r1 (34 :: acc)
            else if e =? 92 then parseStringBody r1 (92 :: acc)
            else if e =? 47 then parseStringBody r1 (47 :: acc)
            else if e =? 98 then parseStringBody r1 (8 :: acc)
            else if e =? 102 then parseStringBody r1 (12 :: acc)
            else if e =? 110 then parseStringBody r1 (10 :: acc)
            else if e =? 114 then parseStringBody r1 (13 :: acc)
            else if e =? 116 then parseStringBody r1 (9 :: acc)
            else if e =? 117 then
              match r1 with
              | h1 :: h2 :: h3 :: h4 :: r2 =>
                  match hexValue h1, hexValue h2, hexValue h3, hexValue h4 with
                  | Some a, Some b, Some c', Some d =>
                      parseStringBody r2 ((((a * 16 + b) * 16 + c') * 16 + d) :: acc)
                  | _, _, _, _ => None
                  end
              | _ => None
              end
            else None
        end
      else if c <? 32 then None
      else parseStringBody r (c :: acc)
  end.

(** One or more digits at the head of [s]. *)
Definition parseDigits (s : jsstring) : option (list N * list N) :=
  match digitPrefix s with
  | [] => None
  | ds => Some (ds, skipn (length ds) s)
  end.

(** A JSON number at the head of [s]: its literal and the rest. *)
Definition parseNumber (s : jsstring) : option (list N * list N) :=
  let '(sign, s1) := match s with
                     | c :: r => if c =? 45 then ([45], r) else ([], s)
                     | [] => ([], s)
                     end in
  match parseDigits s1 with
  | None => None
  | Some (int, s2) =>
      match int with
      | 48 :: _ :: _ => None
      | _ =>
          let fracPart :=
            match s2 with
            | c :: r =>
                if c =? 46 then
                  match parseDigits r with
                  | Some (ds, r') => Some (46 :: ds, r')
                  | None => None
                  end
                else Some ([], s2)
            | [] => Some ([], s2)
            end in
          match fracPart with
          | None => None
          | Some (frac, s3) =>
              let expPart :=
                match s3 with
                | c :: r =>
                    if (c =? 101) || (c =? 69) then
                      let '(sg, r0) :=
                        match r with
                        | g :: r' =>
                            if (g =? 43) || (g =? 45) then ([g], r') else ([], r)
                        | [] => ([], r)
                        end in
                      match parseDigits r0 with
                      | Some (ds, r') => Some (c :: sg ++ ds, r')
                      | None => None
                      end
                    else Some ([], s3)
                | [] => Some ([], s3)
                end in
              match expPart with
              | None => None
              | Some (ex, s4) => Some (sign ++ int ++ frac ++ ex, s4)
              end
          end
      end
  end.

(** [lit] at the head of [s]: the rest after it. *)
Fixpoint expect (lit s : jsstring) : option (list N) :=
  match lit, s with
  | [], _ => Some s
  | a :: lit', b :: s' => if a =? b then expect lit' s' else None
  | _ :: _, [] => None
  end.

(** Recursive descent.  Of any two nested calls one consumes a character
    of the text, so a fuel above twice its length is never used up. *)
Fixpoint parseValue (fuel : nat) (s : jsstring) : option (json * list N) :=
  match fuel with
  | O => None
  | S f =>
      match skipWs s with
      | [] => None
      | c :: r =>
          if c =? 123 then
            match skipWs r with
            | d :: r' => if d =? 125 then Some (JObject [], r')
                         else parseMembers f r []
            | [] => None
            end
          else if c =? 91 then
            match skipWs r with
            | d :: r' => if d =? 93 then Some (JArray [], r')
                         else parseElements f r []
            | [] => None
            end
          else if c =? 34 then
            match parseStringBody r [] with
            | Some (k, r') => Some (JString k, r')
            | None => None
            end
          else if c =? 116 then option_map (pair (JBool true)) (expect (str "rue") r)
          else if c =? 102 then option_map (pair (JBool false)) (expect (str "alse") r)
          else if c =? 110 then option_map (pair JNull) (expect (str "ull") r)
          else match parseNumber (c :: r) with
               | Some (lit, r') => Some (JNumber lit, r')
               | None => None
               end
      end
  end
with parseElements (fuel : nat) (s : jsstring) (acc : list json)
  : option (json * list N) :=
  match fuel with
  | O => None
  | S f =>
      match parseValue f s with
      | None => None
      | Some (v, r) =>
          match skipWs r with
          | c :: r' =>
              if c =? 44 then parseElements f r' (v :: acc)
              else if c =? 93 then Some (JArray (rev (v :: acc)), r')
              else None
          | [] => None
          end
      end
  end
with parseMembers (fuel : nat) (s : jsstring) (acc : list (list N * json))
  : option (json * list N) :=
  match fuel with
  | O => None
  | S f =>
      match skipWs s with
      | c :: r =>
          if c =? 34 then
            match parseStringBody r [] with
            | None => None
            | Some (k, r1) =>
                match skipWs r1 with
                | d :: r2 =>
                    if d =? 58 then
                      match parseValue f r2 with
                      | None => None
                      | Some (v, r3) =>
                          match skipWs r3 with
                          | e :: r4 =>
                              if e =? 44 then parseMembers f r4 ((k, v) :: acc)
                              else if e =? 125
                              then Some (JObject (rev ((k, v) :: acc)), r4)
                              else None
                          | [] => None
                          end
                      end
                    else None
                | [] => None
                end
            end
          else None
      | [] => None
      end
  end.

(** [JSON.parse(text)]; [None] is a [SyntaxError]. *)
Definition JSON_parse (text : jsstring) : option json :=
  match parseValue (2 + 2 * length text) text with
  | Some (v, r) => match skipWs r with [] => Some v | _ :: _ => None end
  | None => None
  end.

(** The last member named [k]. *)
Definition lookupMember (k : jsstring) (members : list (list N * json))
  : option json :=
  fold_left (fun acc kv => if bool_decide (fst kv = k) then Some (snd kv) else acc)
            members None.

(** [v.k] for a property name [k] that no prototype defines and that is
    neither an index nor [length] (here [params], [context], [requestId]):
    reading a property of [null] throws, an object yields its own member,
    and every other value yields [undefined] ([None]). *)
Definition getProp (v : json) (k : jsstring) : Completion (option json) :=
  match v with
  | JNull =>
      Throw (TypeError (str "Cannot read properties of null (reading '"
                        ++ k ++ str "')"))
  | JObject members => Normal (lookupMember k members)
  | _ => Normal None
  end.

(** What [JSON.parse] returned is serialised without error, and so is an
    array of strings. *)
#[global] Instance json_stringify : JSONStringify json := fun _ => None.
#[global] Instance strings_stringify : JSONStringify (list (list N)) :=
  fun _ => None.

(* ------------------------------------------------------------------ *)
(** ** Properties of process.env and of the env object *)

(** The properties of [Object.prototype], which [process.env] and every
    object literal inherit. *)
Definition OBJECT_PROTOTYPE_NAMES : list (list N) :=
  [str "constructor"; str "__defineGetter__"; str "__defineSetter__";
   str "hasOwnProperty"; str "__lookupGetter__"; str "__lookupSetter__";
   str "isPrototypeOf"; str "propertyIsEnumerable"; str "toString";
   str "valueOf"; str "__proto__"; str "toLocaleString"].

(** What a property of [process.env] holds: the string of a variable, or
    the inherited member of that name (a function; for [__proto__] the
    prototype object), which is no string, not [undefined] and truthy. *)
Inductive EnvValue : Type :=
  | EnvString (s : list N)
  | EnvInherited (name : list N).

(** [process.env[key]], for [process_env] the variables that are set: the
    value of the variable, else what the prototype chain defines under
    that name, else [undefined] ([None]). *)
Definition process_env_get (process_env : gmap (list N) (list N))
    (key : list N) : option EnvValue :=
  match process_env !! key with
  | Some s => Some (EnvString s)
  | None => if bool_decide (key ∈ OBJECT_PROTOTYPE_NAMES)
            then Some (EnvInherited key) else None
  end.

(** [env[key] = val] on an object made by an object literal, as the map
    of its own properties.  Under [__proto__] the assignment runs the
    setter of [Object.prototype], which makes no own property; under every
    other name it makes or overwrites one. *)
Definition setProperty (env : gmap (list N) EnvValue) (key : list N)
    (val : EnvValue) : gmap (list N) EnvValue :=
  if bool_decide (key = str "__proto__") then env else <[key := val]> env.

(** [!v] for a property of [process.env]: [undefined] and the empty
    string are falsy. *)
Definition falsy (v : option EnvValue) : bool :=
  match v with
  | None | Some (EnvString []) => true
  | Some _ => false
  end.

(** The error of [writeHead] on a response whose head was written. *)
Definition ERR_HTTP_HEADERS_SENT : JsError :=
  Error (str "Cannot write headers after they are sent to the client").

(* ------------------------------------------------------------------ *)
(** ** types.ts: tools, contexts, and what a handler does *)

Section Tools.

(** [P] is the type the schema infers ([z.infer<TParams>]), [I] the issue
    list of a failed validation, [R] what [execute] resolves with. *)
Variables P I R : Type.
Context {stringifyIssues : JSONStringify I} {stringifyResult : JSONStringify R}.

(** The result of [schema.safeParse(input)]. *)
Inductive SafeParseResult : Type :=
  | ParseSuccess (data : P)
  | ParseFailure (issues : I).

(** The schema-validation capability: [safeParse] on a value that may be
    [undefined] ([None]). *)
Record ZodSchema : Type := { safeParse : option json -> SafeParseResult }.

(** The logger of a context, [(msg) => console.log(`[fo:tool:${tool.name}]
    [${payload.requestId}] ${msg}`)]: the closure and what it captured. *)
Record Logger : Type := {
  log_tool : jsstring;
  log_requestId : option json }.

(** [{...payload.context, env, log}]: the value whose own properties were
    spread, then [env] (its own properties) and [log], which override
    properties of those names. *)
Record ToolContext : Type := {
  ctx_spread : option json;
  ctx_env : gmap (list N) EnvValue;
  ctx_log : Logger }.

(** What [execute] threw or rejected with. *)
Inductive Thrown : Type :=
  | ThrownError (message : jsstring)
  | ThrownValue.

(** How the promise of [execute] settles, in the run at hand: the code of
    a tool runs in the process of the handler and may read anything
    there. *)
Inductive ExecOutcome : Type :=
  | Resolved (result : R)
  | Rejected (err : Thrown).

Record FoTool : Type := {
  name : jsstring;
  description : jsstring;
  parameters : ZodSchema;
  env : list (list N);
  execute : P -> ToolContext -> ExecOutcome;
  _brand : jsstring }.

(* ---------------------------------------------------------------- *)
(** ** defineTool.ts *)

Record DefineToolConfig : Type := {
  cfg_name : jsstring;
  cfg_description : jsstring;
  cfg_parameters : ZodSchema;
  cfg_env : option (list (list N));
  cfg_execute : P -> ToolContext -> ExecOutcome }.

Definition isLower (c : N) : bool := (97 <=? c) && (c <=? 122).

(** [TOOL_NAME_REGEX.test(s)] for [/^[a-z][a-z0-9_]*$/]. *)
Definition TOOL_NAME_REGEX_test (s : jsstring) : bool :=
  match s with
  | c :: r => isLower c && forallb (fun d => isLower d || isDigit d || (d =? 95)) r
  | [] => false
  end.

Definition quoted (s : jsstring) : jsstring := [dquote] ++ s ++ [dquote].

Definition defineTool (config : DefineToolConfig) : Completion FoTool :=
  if negb (TOOL_NAME_REGEX_test (cfg_name config)) then
    Throw (Error (str "Tool name " ++ quoted (cfg_name config)
                  ++ str " is invalid. "
                  ++ str "Must start with a lowercase letter and contain only lowercase letters, numbers, and underscores."))
  else if (64 <? length (cfg_name config))%nat then
    Throw (Error (str "Tool name " ++ quoted (cfg_name config)
                  ++ str " is too long. Maximum 64 characters."))
  else if Nat.eqb (length (trim (cfg_description config))) 0 then
    Throw (Error (str "Tool " ++ quoted (cfg_name config)
                  ++ str " must have a non-empty description."))
  else if (1024 <? length (cfg_description config))%nat then
    Throw (Error (str "Tool " ++ quoted (cfg_name config)
                  ++ str " description is too long. Maximum 1024 characters."))
  else
    Normal {| name := cfg_name config;
              description := cfg_description config;
              parameters := cfg_parameters config;
              env := match cfg_env config with Some e => e | None => [] end;
              execute := cfg_execute config;
              _brand := str "FoTool" |}.

(* ---------------------------------------------------------------- *)
(** ** webhook.ts: createToolHandler *)

(** What the handler reads of a request: [req.method], [req.headers],
    and the outcome of [readBody(req)], the whole body as a string (the
    bytes received, decoded) or [None] when the stream emitted [error]. *)
Record IncomingMessage : Type := {
  method : option (list N);
  headers : gmap (list N) HeaderValue;
  readBody : option (list N) }.

(** The objects [sendJson] serialises. *)
Inductive ResponseBody : Type :=
  | ErrorBody (error : jsstring)
  | InvalidParametersBody (error : jsstring) (details : I)
  | SuccessBody (result : R)
  | FailureBody (error : jsstring).

(** What a run of the handler does, in order: a call of [sendJson] that
    returned, so that the response went out with this status and body; the
    [writeHead] of a call of [sendJson] that then threw, so that nothing
    went out; the call of [tool.execute]; and the [console.error] of the
    [catch] block (tagged with the tool name and [payload.requestId]). *)
Inductive Event : Type :=
  | SendJson (status : Z) (body : ResponseBody)
  | WriteHead (status : Z)
  | Execute (params : P) (context : ToolContext)
  | ConsoleError (tool_name : jsstring) (requestId : option json) (err : Thrown).

(** [JSON.stringify(body)]: the messages are strings, so it can throw
    only on the issue list or on the result of the tool. *)
Definition bodyThrows (body : ResponseBody) : option JsError :=
  match body with
  | InvalidParametersBody _ details => stringifyThrows details
  | SuccessBody result => stringifyThrows result
  | ErrorBody _ | FailureBody _ => None
  end.

(** [sendJson(res, status, body)]: [res.writeHead(status, ...)], which
    throws when the head of [res] was written before ([headWritten]), then
    [res.end(JSON.stringify(body))], whose argument is evaluated first. *)
Definition sendJson (headWritten : bool) (status : Z) (body : ResponseBody)
  : list Event * Completion unit :=
  if headWritten then ([], Throw ERR_HTTP_HEADERS_SENT)
  else match bodyThrows body with
       | Some err => ([WriteHead status], Throw err)
       | None => ([SendJson status body], Normal tt)
       end.

(** [err instanceof Error ? err.message : 'Tool execution failed']. *)
Definition failureMessage (err : Thrown) : jsstring :=
  match err with
  | ThrownError m => m
  | ThrownValue => str "Tool execution failed"
  end.

(** The loop over [tool.env], [const val = process.env[key]; if (val !==
    undefined) env[key] = val], from the empty object. *)
Definition injectEnv (process_env : gmap (list N) (list N))
    (declared : list (list N)) : gmap (list N) EnvValue :=
  fold_left (fun env key =>
               match process_env_get process_env key with
               | Some val => setProperty env key val
               | None => env
               end)
            declared ∅.

(** The [catch] block around [execute] and the response 200: the message
    of what was caught, [console.error], and the response 500. *)
Definition catchBlock (tool : FoTool) (requestId : option json)
    (headWritten : bool) (err : Thrown) : list Event * Completion unit :=
  let message := failureMessage err in
  let (sent, done) := sendJson headWritten 500 (FailureBody message) in
  (ConsoleError (name tool) requestId err :: sent, done).

(** The handler [createToolHandler(tool, {secret})] on one request, with
    [process.env] and [Date.now()] as it runs: the events in order, and
    how the promise it returns settles.  Described are the runs in which
    the body stream ends or fails and the promise of [execute] settles;
    until then the handler waits, having done the events up to there. *)
Definition createToolHandler (tool : FoTool) (secret : jsstring)
    (process_env : gmap (list N) (list N)) (now : Z) (req : IncomingMessage)
  : list Event * Completion unit :=
  if negb (bool_decide (method req = Some (str "POST"))) then
    sendJson false 405 (ErrorBody (str "Method not allowed"))
  else
  match readBody req with
  | None => sendJson false 400 (ErrorBody (str "Failed to read request body"))
  | Some rawBody =>
  match verifyWebhook now rawBody (headers req) secret with
  | Throw (WebhookVerificationError message) =>
    sendJson false 401 (ErrorBody message)
  | Throw err => ([], Throw err)
  | Normal _ =>
  match JSON_parse rawBody with
  | None => sendJson false 400 (ErrorBody (str "Invalid JSON body"))
  | Some payload =>
  match getProp payload (str "params") with
  | Throw err => ([], Throw err)
  | Normal params =>
  match safeParse (parameters tool) params with
  | ParseFailure issues =>
    sendJson false 422 (InvalidParametersBody (str "Invalid tool parameters") issues)
  | ParseSuccess data =>
    let env := injectEnv process_env (env tool) in
    match getProp payload (str "context"), getProp payload (str "requestId") with
    | Throw err, _ | _, Throw err => ([], Throw err)
    | Normal spread, Normal requestId =>
      let context :=
        {| ctx_spread := spread;
           ctx_env := env;
           ctx_log := {| log_tool := name tool; log_requestId := requestId |} |} in
      match execute tool data context with
      | Resolved result =>
        match sendJson false 200 (SuccessBody result) with
        | (sent, Normal _) => (Execute data context :: sent, Normal tt)
        | (sent, Throw err) =>
          (* thrown by [JSON.stringify], after [writeHead] *)
          let (caught, done) :=
            catchBlock tool requestId true (ThrownError (errorMessage err)) in
          (Execute data context :: sent ++ caught, done)
        end
      | Rejected err =>
        let (caught, done) := catchBlock tool requestId false err in
        (Execute data context :: caught, done)
      end
    end
  end end end end end.

End Tools.

Arguments ParseSuccess {P I} data.
Arguments ParseFailure {P I} issues.
Arguments safeParse {P I} _ _.
Arguments Resolved {R} result.
Arguments Rejected {R} err.
Arguments name {P I R} _.
Arguments description {P I R} _.
Arguments parameters {P I R} _.
Arguments env {P I R} _.
Arguments execute {P I R} _ _ _.
Arguments _brand {P I R} _.
Arguments cfg_name {P I R} _.
Arguments cfg_description {P I R} _.
Arguments cfg_parameters {P I R} _.
Arguments cfg_env {P I R} _.
Arguments cfg_execute {P I R} _ _ _.
Arguments defineTool {P I R} config.
Arguments ErrorBody {I R} error.
Arguments InvalidParametersBody {I R} error details.
Arguments SuccessBody {I R} result.
Arguments FailureBody {I R} error.
Arguments SendJson {P I R} status body.
Arguments WriteHead {P I R} status.
Arguments Execute {P I R} params context.
Arguments ConsoleError {P I R} tool_name requestId err.
Arguments createToolHandler {P I R stringifyIssues stringifyResult}
  tool secret process_env now req.

(* ------------------------------------------------------------------ *)
(** ** Vocabulary for statements about the handler *)

(** The stages a request passes before [execute] is called: the method is
    POST, the body was read, its signature verified, it parsed to
    [payload], and the schema validated [payload.params] to [data]. *)
Definition validated {P I R : Type} (tool : FoTool P I R) (secret : jsstring)
    (now : Z) (req : IncomingMessage)
    (rawBody : jsstring) (payload : json) (raw : option json) (data : P) : Prop :=
  method req = Some (str "POST")
  /\ readBody req = Some rawBody
  /\ verifyWebhook now rawBody (headers req) secret = Normal tt
  /\ JSON_parse rawBody = Some payload
  /\ getProp payload (str "params") = Normal raw
  /\ safeParse (parameters tool) raw = ParseSuccess data.

(** [ctx] is the context the handler builds for [payload]. *)
Definition contextFor {P I R : Type} (tool : FoTool P I R)
    (process_env : gmap (list N) (list N)) (payload : json) (ctx : ToolContext)
  : Prop :=
  getProp payload (str "context") = Normal (ctx_spread ctx)
  /\ ctx_env ctx = injectEnv process_env (env tool)
  /\ getProp payload (str "requestId") = Normal (log_requestId (ctx_log ctx))
  /\ log_tool (ctx_log ctx) = name tool.

(** The statuses of the responses sent, in order. *)
Definition statuses {P I R : Type} (trace : list (Event P I R)) : list Z :=
  flat_map (fun e => match e with SendJson status _ => [status] | _ => [] end)
           trace.

(* ------------------------------------------------------------------ *)
(** ** A tool to run the definitions on

    After [echo_tool] of the test suite: the schema is [{value: number}],
    it validates to the literal of the number, and [execute] answers with
    the value (it rejects the value 0). *)

Definition sample_schema : ZodSchema (list N) (list (list N)) :=
  {| safeParse := fun input =>
       match input with
       | Some (JObject members) =>
           match lookupMember (str "value") members with
           | Some (JNumber literal) => ParseSuccess literal
           | Some _ => ParseFailure [str "Expected number"]
           | None => ParseFailure [str "Required"]
           end
       | _ => ParseFailure [str "Expected object"]
       end |}.

Definition sample_config (tool_name tool_description : jsstring)
  : DefineToolConfig (list N) (list (list N)) json :=
  {| cfg_name := tool_name;
     cfg_description := tool_description;
     cfg_parameters := sample_schema;
     cfg_env := Some [str "SALESFORCE_TOKEN"; str "CRM_REGION"];
     cfg_execute := fun value _ =>
       if bool_decide (value = str "0")
       then Rejected (ThrownError (str "value must not be zero"))
       else Resolved (JObject [(str "value", JNumber value)]) |}.

(** What [defineTool] returns on the sample configuration named
    [echo_tool]. *)
Definition sample_tool : FoTool (list N) (list (list N)) json :=
  let config := sample_config (str "echo_tool") (str "Echoes the input") in
  {| name := cfg_name config;
     description := cfg_description config;
     parameters := cfg_parameters config;
     env := [str "SALESFORCE_TOKEN"; str "CRM_REGION"];
     execute := cfg_execute config;
     _brand := str "FoTool" |}.

(** An ambient environment with one declared variable set, one declared
    variable unset, and one variable the tool did not declare. *)
Definition sample_process_env : gmap (list N) (list N) :=
  <[str "SALESFORCE_TOKEN" := str "tok_123"]>
    (<[str "PATH" := str "/usr/bin"]> ∅).

(** A POST request whose body was signed at the clock value [now]. *)
Definition signedRequest (now : Z) (body secret : jsstring) : IncomingMessage :=
  {| method := Some (str "POST");
     headers := signedHeaders (signWebhookPayload now body secret);
     readBody := Some body |}.

(** A signed request for the sample tool, with parameters [{value: 21}]. *)
Definition sample_request : IncomingMessage :=
  signedRequest 1700000000123
    (strq "{'tool':'echo_tool','params':{'value':21},'context':{'agent':{'name':'Atlas'}},'requestId':'req_test_123'}")
    (str "secret").





(** The sample tool declaring a name that [Object.prototype] defines. *)
Definition proto_tool : FoTool (list N) (list (list N)) json :=
  {| name := name sample_tool;
     description := description sample_tool;
     parameters := parameters sample_tool;
     env := [str "SALESFORCE_TOKEN"; str "constructor"];
     execute := execute sample_tool;
     _brand := str "FoTool" |}.

(** A result [JSON.stringify] throws on. *)
Inductive BigInt : Type := bigint (n : Z).

#[global] Instance bigint_stringify : JSONStringify BigInt :=
  fun _ => Some (TypeError (str "Do not know how to serialize a BigInt")).

(** A tool that resolves with a [BigInt]. *)
Definition count_tool : FoTool (list N) (list (list N)) BigInt :=
  {| name := str "count_tool";
     description := str "Counts the rows";
     parameters := sample_schema;
     env := [];
     execute := fun _ _ => Resolved (bigint 9007199254740993);
     _brand := str "FoTool" |}.

(** The context the handler builds for [sample_request]. *)
Definition sample_context : ToolContext :=
  {| ctx_spread :=
       Some (JObject [(str "agent", JObject [(str "name", JString (str "Atlas"))])]);
     ctx_env := injectEnv sample_process_env (env sample_tool);
     ctx_log := {| log_tool := str "echo_tool";
                   log_requestId := Some (JString (str "req_test_123")) |} |}.

(* ------------------------------------------------------------------ *)
(** ** testing.ts: the headers of createMockWebhookRequest *)

(** The [headers] object [createMockWebhookRequest] returns, for the
    signature and timestamp [signWebhookPayload] gave for its body. *)
Definition createMockWebhookRequest_headers (sp : SignedPayload)
  : gmap (list N) HeaderValue :=
  <[str "content-type" := HString (str "application/json")]>
    (<[str "x-fo-signature" := HString (signature sp)]>
       (<[str "x-fo-timestamp" := HString (timestamp sp)]>
          (<[str "x-fo-agent-id" := HString (str "test-agent")]>
             (<[str "x-fo-request-id" := HString (str "req_test_123")]> ∅)))).

(* ------------------------------------------------------------------ *)
(** ** defineConfig.ts *)

Record AgentIdentity : Type := {
  agent_name : jsstring;
  agent_email : jsstring }.

(** [AGENT_EMAIL_REGEX.test(s)] for [/^[a-z][a-z0-9-]*$/]. *)
Definition AGENT_EMAIL_REGEX_test (s : jsstring) : bool :=
  match s with
  | c :: r =>
      ((97 <=? c) && (c <=? 122))
      && forallb (fun d => ((97 <=? d) && (d <=? 122)) || isDigit d || (d =? 45)) r
  | [] => false
  end.

Definition RESERVED_NAMES : list (list N) :=
  [str "fo"; str "maybelle"; str "admin"; str "support"; str "noreply"; str "help"].

(** [s.startsWith(prefix)]. *)
Fixpoint startsWith (s prefix : jsstring) : bool :=
  match prefix, s with
  | [], _ => true
  | a :: prefix', b :: s' => (a =? b) && startsWith s' prefix'
  | _ :: _, [] => false
  end.

Section Config.

Variables P I R : Type.

Record CustomToolRegistration : Type := {
  reg_tool : FoTool P I R;
  webhookUrl : jsstring;
  webhookSecret : jsstring }.

(** Every field is optional ([None] is [undefined]). *)
Record ToolsConfig : Type := {
  tools_email : option bool;
  tools_calendar : option bool;
  tools_browser : option bool;
  tools_custom : option (list CustomToolRegistration) }.

Record DefineConfigInput : Type := {
  input_agent : AgentIdentity;
  input_tools : option ToolsConfig;
  input_instructions : option (list N);
  input_env : option (list (list N)) }.

Record FoConfig : Type := {
  config_agent : AgentIdentity;
  config_tools : ToolsConfig;
  config_instructions : option (list N);
  config_env : option (list (list N));
  config_brand : jsstring }.

(** The loop of [defineConfig] over [tools.custom]: the first
    registration that fails a check throws. *)
Fixpoint checkRegistrations (custom : list CustomToolRegistration)
  : Completion unit :=
  match custom with
  | [] => Normal tt
  | registration :: rest =>
      if Nat.eqb (length (_brand (reg_tool registration))) 0
         || negb (bool_decide (_brand (reg_tool registration) = str "FoTool"))
      then
        Throw (Error (str "Each custom tool must be created with defineTool(). "
                      ++ str "Check your tools are proper FoTool instances."))
      else if negb (startsWith (webhookUrl registration) (str "https://")) then
        Throw (Error (str "Custom tool " ++ quoted (name (reg_tool registration))
                      ++ str " has an invalid webhookUrl. "
                      ++ str "Must be an HTTPS URL (e.g. "
                      ++ quoted (str "https://my-app.com/tools/"
                                 ++ name (reg_tool registration))
                      ++ str ")."))
      else if Nat.eqb (length (webhookSecret registration)) 0 then
        Throw (Error (str "Custom tool " ++ quoted (name (reg_tool registration))
                      ++ str " is missing a webhookSecret. "
                      ++ str "Provide a secret to verify webhook calls from Fo."))
      else checkRegistrations rest
  end.

Definition defineConfig (input : DefineConfigInput) : Completion FoConfig :=
  let agent := input_agent input in
  let tools := match input_tools input with
               | Some t => t
               | None => {| tools_email := None; tools_calendar := None;
                            tools_browser := None; tools_custom := None |}
               end in
  let instructions := input_instructions input in
  let env := match input_env input with Some e => e | None => [] end in
  if Nat.eqb (length (trim (agent_name agent))) 0 then
    Throw (Error (str "agent.name must be a non-empty string"))
  else if existsb (N.eqb 64) (agent_email agent) then
    Throw (Error (str "agent.email should be just the subdomain (e.g. "
                  ++ quoted (str "atlas") ++ str "), not a full address. "
                  ++ str "Fo will provision atlas@foibleai.com for you."))
  else if negb (AGENT_EMAIL_REGEX_test (agent_email agent)) then
    Throw (Error (str "agent.email " ++ quoted (agent_email agent)
                  ++ str " is invalid. "
                  ++ str "Must start with a lowercase letter and contain only lowercase letters, numbers, and hyphens."))
  else if bool_decide (agent_email agent ∈ RESERVED_NAMES) then
    Throw (Error (str "agent.email " ++ quoted (agent_email agent)
                  ++ str " is reserved. Choose a different name."))
  else
    match checkRegistrations
            (match tools_custom tools with Some c => c | None => [] end) with
    | Throw e => Throw e
    | Normal _ =>
        Normal
          {| config_agent := agent;
             config_tools :=
               {| tools_email :=
                    Some (match tools_email tools with Some b => b | None => true end);
                  tools_calendar :=
                    Some (match tools_calendar tools with Some b => b | None => true end);
                  tools_browser :=
                    Some (match tools_browser tools with Some b => b | None => false end);
                  tools_custom :=
                    Some (match tools_custom tools with Some c => c | None => [] end) |};
             config_instructions := instructions;
             config_env := Some env;
             config_brand := str "FoConfig" |}
    end.

(** [tools.custom ?? []] for the [tools] of an input. *)
Definition inputCustom (input : DefineConfigInput) : list CustomToolRegistration :=
  match input_tools input with
  | Some tools => match tools_custom tools with Some c => c | None => [] end
  | None => []
  end.

(** A configuration given to [defineConfig] again, field by field. *)
Definition asInput (config : FoConfig) : DefineConfigInput :=
  {| input_agent := config_agent config;
     input_tools := Some (config_tools config);
     input_instructions := config_instructions config;
     input_env := config_env config |}.

(** What [defineConfig] requires of one registration. *)
Definition registrationOk (registration : CustomToolRegistration) : Prop :=
  _brand (reg_tool registration) = str "FoTool"
  /\ startsWith (webhookUrl registration) (str "https://") = true
  /\ webhookSecret registration <> [].

End Config.

Arguments reg_tool {P I R} _.
Arguments webhookUrl {P I R} _.
Arguments webhookSecret {P I R} _.
Arguments tools_email {P I R} _.
Arguments tools_calendar {P I R} _.
Arguments tools_browser {P I R} _.
Arguments tools_custom {P I R} _.
Arguments input_agent {P I R} _.
Arguments input_tools {P I R} _.
Arguments input_instructions {P I R} _.
Arguments input_env {P I R} _.
Arguments config_agent {P I R} _.
Arguments config_tools {P I R} _.
Arguments config_instructions {P I R} _.
Arguments config_env {P I R} _.
Arguments config_brand {P I R} _.
Arguments checkRegistrations {P I R} custom.
Arguments defineConfig {P I R} input.
Arguments asInput {P I R} config.
Arguments inputCustom {P I R} input.
Arguments registrationOk {P I R} registration.

(* ------------------------------------------------------------------ *)
(** ** cli/utils/config.ts *)

(** [checkEnvVars(required).missing]: the required keys for which
    [process.env[key]] is falsy. *)
Definition checkEnvVars (process_env : gmap (list N) (list N))
    (required : list (list N)) : list (list N) :=
  filter (fun key => falsy (process_env_get process_env key) = true) required.

(* ------------------------------------------------------------------ *)
(** ** More vocabulary *)

(** A tool given to [defineTool] again, field by field. *)
Definition asToolConfig {P I R : Type} (tool : FoTool P I R)
  : DefineToolConfig P I R :=
  {| cfg_name := name tool;
     cfg_description := description tool;
     cfg_parameters := parameters tool;
     cfg_env := Some (env tool);
     cfg_execute := execute tool |}.

(** What [defineConfig] requires of the agent: a name that is not blank,
    and a subdomain that matches the pattern and is not reserved. *)
Definition agentOk (agent : AgentIdentity) : Prop :=
  forallb isWhiteSpace (agent_name agent) = false
  /\ AGENT_EMAIL_REGEX_test (agent_email agent) = true
  /\ agent_email agent ∉ RESERVED_NAMES.

(** A lower-case hexadecimal digit. *)
Definition isHexLower (c : N) : bool :=
  isDigit c || ((97 <=? c) && (c <=? 102)).

(** The calls of [execute] in a run, in order. *)
Definition executions {P I R : Type} (trace : list (Event P I R))
  : list (P * ToolContext) :=
  flat_map (fun e => match e with
                     | Execute params context => [(params, context)]
                     | _ => []
                     end) trace.

(** The clock value [now'] is outside the window of the timestamp [ts]:
    more than 300000 ms after it or more than 60000 ms before it. *)
Definition outsideWindow (now' ts : Z) : bool :=
  ((now' - ts * 1000 >? 300000) || (now' - ts * 1000 <? -60000))%Z.

(** An ambient environment that sets every variable the sample tool
    declares. *)
Definition sample_full_env : gmap (list N) (list N) :=
  <[str "CRM_REGION" := str "eu"]> sample_process_env.

(** A registration of the sample tool. *)
Definition sample_registration
  : CustomToolRegistration (list N) (list (list N)) json :=
  {| reg_tool := sample_tool;
     webhookUrl := str "https://my-app.com/tools/echo_tool";
     webhookSecret := str "secret" |}.

Definition sample_input
  : DefineConfigInput (list N) (list (list N)) json :=
  {| input_agent := {| agent_name := str "Atlas"; agent_email := str "atlas" |};
     input_tools := Some {| tools_email := None; tools_calendar := Some false;
                            tools_browser := None;
                            tools_custom := Some [sample_registration] |};
     input_instructions := None;
     input_env := None |}.

(* ================================================================== *)
(** * Properties *)

(** ** The platform functions on known values *)

(** U+00E9 and U+20AC take two and three bytes, the pair D83D DE00 is
    U+1F600 on four bytes, and an unpaired surrogate is written as
    U+FFFD. *)
Example Buffer_from_utf8_known :
  Buffer_from_utf8 [0xe9; 0x20ac] = [0xc3; 0xa9; 0xe2; 0x82; 0xac]
  /\ Buffer_from_utf8 [0xd83d; 0xde00] = [0xf0; 0x9f; 0x98; 0x80]
  /\ Buffer_from_utf8 [0xd800; 0x41] = [0xef; 0xbf; 0xbd; 0x41]
  /\ Buffer_from_utf8 [0xdc00] = [0xef; 0xbf; 0xbd].
Proof. repeat split. Qed.

(** Decoding inverts that on well-formed input; a byte that cannot start
    or continue a sequence becomes U+FFFD, and so does a sequence cut
    short, as a whole: F0 BF BD before [A], and E2 82 at the end. *)
Example Buffer_toString_utf8_known :
  Buffer_toString_utf8 [0xc3; 0xa9; 0xe2; 0x82; 0xac; 0xf0; 0x9f; 0x98; 0x80]
  = [0xe9; 0x20ac; 0xd83d; 0xde00]
  /\ Buffer_toString_utf8 [0xed; 0xa0; 0x80; 0xff; 0xc0; 0x80]
     = [0xfffd; 0xfffd; 0xfffd; 0xfffd; 0xfffd; 0xfffd]
  /\ Buffer_toString_utf8 [0xf0; 0xbf; 0xbd; 0x41; 0xe2; 0x82]
     = [0xfffd; 0x41; 0xfffd]
  /\ Buffer_toString_utf8 [0xef; 0xbf; 0xbd; 0x41] = [0xfffd; 0x41].
Proof. repeat split. Qed.

Example parseInt_known :
  parseInt (str "1700000000") = Some 1700000000%Z
  /\ parseInt (str " -42") = Some (-42)%Z
  /\ parseInt (str "12.5") = Some 12%Z
  /\ parseInt (str "") = None
  /\ parseInt (str "abc") = None
  /\ parseInt (str "+") = None.
Proof. repeat split. Qed.

Example JSON_parse_known :
  JSON_parse (str "null") = Some JNull
  /\ JSON_parse (strq " {'a': [1, -2.5e3, true], 'a': 'xA'} ")
     = Some (JObject [(str "a", JArray [JNumber (str "1"); JNumber (str "-2.5e3");
                                        JBool true]);
                      (str "a", JString (str "xA"))])
  /\ JSON_parse (str "[[[[[[[[1]]]]]]]]")
     = Some (JArray [JArray [JArray [JArray [JArray [JArray [JArray
               [JArray [JNumber (str "1")]]]]]]]])
  /\ JSON_parse (str "{'a': 1}") = None
  /\ JSON_parse (str "01") = None
  /\ JSON_parse (str "[1,]") = None
  /\ JSON_parse (str "nul") = None
  /\ JSON_parse (str "") = None.
Proof. repeat split; vm_compute; reflexivity. Qed.

Example defineTool_sample :
  defineTool (sample_config (str "echo_tool") (str "Echoes the input"))
  = Normal sample_tool.
Proof. reflexivity. Qed.

(** ** The hash functions on published test vectors *)

(** FIPS 180-4: the first and the last round constant, the first word of
    the initial hash value, and the digest of ["abc"]. *)
Example sha256_abc :
  nth 0 sha256_K 0 = 0x428a2f98 /\ nth 63 sha256_K 0 = 0xc67178f2
  /\ nth 0 sha256_H0 0 = 0x6a09e667
  /\ hex (sha256 (Buffer_from_utf8 (str "abc")))
     = str "ba7816bf8f01cfea414140de5dae2223b00361a396177a9cb410ff61f20015ad".
Proof. repeat split; vm_compute; reflexivity. Qed.

(** RFC 4231, test case 2. *)
Example hmac_sha256_rfc4231 :
  createHmac_sha256_hex (str "Jefe") (str "what do ya want for nothing?")
  = str "5bdcc146bf60754e6a042426089575c75a003f089d2739839dec58b964ec3843".
Proof. vm_compute. reflexivity. Qed.

(** ** Decimal notation: [parseInt] inverts [Number.prototype.toString] *)

Lemma digitsOf_mathInt (f : nat) : forall (n : N) (acc : jsstring),
  n < 2 ^ N.of_nat f ->
  mathInt 0 (digitsOf f n acc) = mathInt (Z.of_N n) acc.
Proof.
  induction f as [|f IH]; intros n acc Hn.
  - simpl in *. replace n with 0 by lia. reflexivity.
  - cbn [digitsOf]. destruct (N.eqb_spec (n / 10) 0) as [Hq|Hq].
    + cbn [mathInt]. f_equal.
      assert (n < 10) by (apply N.div_small_iff in Hq; lia).
      rewrite N.mod_small by lia. lia.
    + rewrite IH.
      * cbn [mathInt]. f_equal.
        pose proof (N.div_mod n 10 ltac:(lia)).
        pose proof (N.mod_upper_bound n 10 ltac:(lia)). lia.
      * rewrite Nat2N.inj_succ, N.pow_succ_r' in Hn.
        apply N.Div0.div_lt_upper_bound. lia.
Qed.

Lemma digitsOf_digits (f : nat) : forall (n : N) (acc : jsstring),
  forallb isDigit acc = true -> forallb isDigit (digitsOf f n acc) = true.
Proof.
  induction f as [|f IH]; intros n acc Hacc; [exact Hacc|].
  assert (Hd : forallb isDigit ((48 + n mod 10) :: acc) = true).
  { cbn [forallb]. rewrite Hacc, andb_true_r. unfold isDigit.
    pose proof (N.mod_upper_bound n 10 ltac:(lia)) as Hm.
    revert Hm. generalize (n mod 10). intros m Hm.
    apply andb_true_intro; split; apply N.leb_le; lia. }
  cbn [digitsOf]. destruct (n / 10 =? 0); [exact Hd | apply IH, Hd].
Qed.

Lemma digitsOf_nonempty (f : nat) (n : N) (acc : jsstring) :
  digitsOf (S f) n acc <> [].
Proof.
  revert n acc. induction f as [|f IH]; intros n acc.
  - cbn. destruct (n / 10 =? 0); discriminate.
  - cbn [digitsOf]. destruct (n / 10 =? 0); [discriminate|].
    apply (IH (n / 10)).
Qed.

Lemma digitPrefix_all (s : jsstring) :
  forallb isDigit s = true -> digitPrefix s = s.
Proof.
  induction s as [|c r IH]; [reflexivity|].
  cbn. destruct (isDigit c); [|discriminate].
  intros H. f_equal. apply IH, H.
Qed.

Lemma isDigit_not_space (c : N) : isDigit c = true -> isWhiteSpace c = false.
Proof.
  unfold isDigit, isWhiteSpace. intros H.
  apply andb_true_iff in H as [H1 H2].
  apply N.leb_le in H1. apply N.leb_le in H2.
  repeat match goal with
  | |- context [?a =? ?b] => destruct (N.eqb_spec a b); [lia|]
  end.
  destruct (N.leb_spec 8192 c); [lia|]. reflexivity.
Qed.

Lemma isDigit_not_sign (c : N) :
  isDigit c = true -> (c =? 43) || (c =? 45) = false.
Proof.
  unfold isDigit. intros H.
  apply andb_true_iff in H as [H1 H2].
  apply N.leb_le in H1. apply N.leb_le in H2.
  destruct (N.eqb_spec c 43); [lia|]. destruct (N.eqb_spec c 45); [lia|].
  reflexivity.
Qed.

(** The digits [Number_toString] writes for a magnitude. *)
Lemma magnitude_digits (a : N) :
  exists d ds, digitsOf (S (N.to_nat (N.size a))) a [] = d :: ds
    /\ forallb isDigit (d :: ds) = true
    /\ mathInt 0 (d :: ds) = Z.of_N a.
Proof.
  destruct (digitsOf (S (N.to_nat (N.size a))) a []) as [|d ds] eqn:E.
  - exfalso. exact (digitsOf_nonempty _ _ _ E).
  - exists d, ds. split; [reflexivity|]. rewrite <- E. split.
    + apply digitsOf_digits. reflexivity.
    + rewrite digitsOf_mathInt; [reflexivity|].
      rewrite Nat2N.inj_succ, N2Nat.id, N.pow_succ_r'.
      pose proof (N.size_gt a). lia.
Qed.

Lemma parseInt_digits (d : N) (ds : jsstring) :
  forallb isDigit (d :: ds) = true ->
  parseInt (d :: ds) = Some (mathInt 0 (d :: ds)).
Proof.
  intros H. pose proof H as H'. cbn [forallb] in H'.
  apply andb_true_iff in H' as [Hd _].
  unfold parseInt. cbn [trimStart].
  rewrite (isDigit_not_space _ Hd), (isDigit_not_sign _ Hd).
  rewrite (digitPrefix_all _ H).
  assert (Hs : match d :: ds with 45 :: _ => (-1)%Z | _ => 1%Z end = 1%Z).
  { destruct (N.eqb_spec d 45) as [->|Hne]; [discriminate Hd|].
    destruct d as [|p]; [reflexivity|].
    repeat (destruct p as [p|p|]; try reflexivity). congruence. }
  rewrite Hs. f_equal. lia.
Qed.

Lemma parseInt_Number_toString (n : Z) :
  parseInt (Number_toString n) = Some n.
Proof.
  unfold Number_toString.
  destruct (magnitude_digits (Z.abs_N n)) as (d & ds & -> & Hds & Hv).
  destruct (Z.ltb_spec n 0) as [Hneg|Hpos].
  - unfold parseInt. cbn [trimStart]. change (isWhiteSpace 45) with false.
    cbv iota. change ((45 =? 43) || (45 =? 45)) with true. cbv iota.
    rewrite (digitPrefix_all _ Hds), Hv. f_equal. lia.
  - rewrite (parseInt_digits _ _ Hds), Hv. f_equal. lia.
Qed.

Lemma Number_toString_truthy (n : Z) :
  truthy (Some (Number_toString n)) = Some (Number_toString n).
Proof.
  unfold Number_toString.
  destruct (magnitude_digits (Z.abs_N n)) as (d & ds & -> & _).
  destruct (n <? 0)%Z; reflexivity.
Qed.

(** ** Comparing buffers *)

Lemma xor_fold_zero (l : list (N * N)) : forall acc : N,
  fold_left (fun a xy => N.lor a (N.lxor (fst xy) (snd xy))) l acc = 0
  <-> acc = 0 /\ Forall (fun xy => fst xy = snd xy) l.
Proof.
  induction l as [|[x y] l IH]; intros acc; cbn [fold_left fst snd].
  - split; [intros ->; split; [reflexivity | constructor] | intros [-> _]; reflexivity].
  - rewrite IH. rewrite N.lor_eq_0_iff.  rewrite N.lxor_eq_0_iff. rewrite Forall_cons_iff. cbn [fst snd]. tauto.
Qed.

Lemma combine_diag_eq (a : list N) : forall b : list N,
  length a = length b ->
  Forall (fun xy : N * N => fst xy = snd xy) (combine a b) <-> a = b.
Proof.
  induction a as [|x a IH]; intros [|y b] Hlen; try discriminate Hlen.
  - split; [reflexivity | constructor].
  - cbn [combine]. rewrite Forall_cons_iff, IH by (cbn in Hlen; lia). cbn [fst snd].
    split; [intros [-> ->]; reflexivity | intros [= -> ->]; split; reflexivity].
Qed.

(** On buffers of one length [timingSafeEqual] decides equality. *)
Lemma timingSafeEqual_spec (a b : list N) :
  length a = length b -> timingSafeEqual a b = Normal (bool_decide (a = b)).
Proof.
  intros Hlen. unfold timingSafeEqual.
  rewrite (proj2 (Nat.eqb_eq _ _) Hlen). f_equal.
  apply eq_true_iff_eq. rewrite N.eqb_eq, xor_fold_zero, bool_decide_eq_true.
  rewrite (combine_diag_eq _ _ Hlen). tauto.
Qed.

(** ** The steps of [verifyWebhook] *)

(** The run of [verifyWebhook] once both headers are there and the
    timestamp reads as [ts]. *)
Lemma verifyWebhook_checked (now : Z) (body : list N)
    (headers : gmap (list N) HeaderValue) (secret sig t : list N) (ts : Z) :
  truthy (getHeader headers (str "x-fo-signature")) = Some sig ->
  truthy (getHeader headers (str "x-fo-timestamp")) = Some t ->
  parseInt t = Some ts ->
  verifyWebhook now body headers secret =
    if ((now - ts * 1000 >? 300000) || (now - ts * 1000 <? -60000))%Z
    then Throw StaleOrFutureTimestamp
    else if bool_decide
              (Buffer_from_utf8
                 (str "sha256=" ++ createHmac_sha256_hex secret (t ++ str "." ++ body))
               = Buffer_from_utf8 sig)
         then Normal tt else Throw InvalidSignature.
Proof.
  intros Hs Ht Hp. unfold verifyWebhook. rewrite Hs, Ht, Hp.
  change TIMESTAMP_TOLERANCE_MS with 300000%Z.
  destruct ((now - ts * 1000 >? 300000) || (now - ts * 1000 <? -60000))%Z;
    [reflexivity|].
  set (expected := Buffer_from_utf8 _). set (received := Buffer_from_utf8 sig).
  destruct (Nat.eqb_spec (length expected) (length received)) as [Hlen|Hlen]; cbn [negb].
  - rewrite (timingSafeEqual_spec _ _ Hlen).
    destruct (bool_decide (expected = received)); reflexivity.
  - rewrite bool_decide_eq_false_2; [reflexivity|]. intros E. apply Hlen. now rewrite E.
Qed.

Lemma header_names_differ : str "x-fo-signature" <> str "x-fo-timestamp".
Proof. intros H. vm_compute in H. discriminate H. Qed.

Lemma getHeader_signedHeaders (sp : SignedPayload) :
  getHeader (signedHeaders sp) (str "x-fo-signature") = Some (signature sp)
  /\ getHeader (signedHeaders sp) (str "x-fo-timestamp") = Some (timestamp sp).
Proof.
  unfold getHeader, signedHeaders. split.
  - now rewrite lookup_insert_eq.
  - rewrite lookup_insert_ne by exact header_names_differ.
    now rewrite lookup_insert_eq.
Qed.

(** ** Signing and verifying *)

(** C1.  For every body [B], secret [S] and clock value [now], the
    signature and timestamp that [signWebhookPayload] produces for [B]
    under [S] are accepted by [verifyWebhook] for [B] and [S] at the same
    clock value: the call returns and does not throw. *)
Theorem sign_then_verify_succeeds (now : Z) (B S : list N) :
  verifyWebhook now B (signedHeaders (signWebhookPayload now B S)) S = Normal tt.
Proof.
  destruct (getHeader_signedHeaders (signWebhookPayload now B S)) as [Hs Ht].
  rewrite (verifyWebhook_checked now B _ S
             (signature (signWebhookPayload now B S))
             (Number_toString (now / 1000)) (now / 1000)%Z).
  - pose proof (Z.mod_pos_bound now 1000 ltac:(lia)) as Hm.
    pose proof (Z.div_mod now 1000 ltac:(lia)) as Hd.
    assert (Hage : ((now - now / 1000 * 1000 >? 300000)
                    || (now - now / 1000 * 1000 <? -60000))%Z = false).
    { apply orb_false_intro; [rewrite Z.gtb_ltb|]; apply Z.ltb_ge; lia. }
    rewrite Hage. cbn [signWebhookPayload signature].
    now rewrite bool_decide_eq_true_2.
  - rewrite Hs. reflexivity.
  - rewrite Ht. apply Number_toString_truthy.
  - apply parseInt_Number_toString.
Qed.

(** ** UTF-8 on ASCII text, and the text of a digest *)

Lemma Buffer_from_utf8_ascii_app (a : list N) (b : list N) :
  Forall isAscii a -> Buffer_from_utf8 (a ++ b) = a ++ Buffer_from_utf8 b.
Proof.
  induction 1 as [|c a Hc _ IH]; [reflexivity|].
  unfold isAscii in Hc.
  cbn [app Buffer_from_utf8]. unfold isHighSurrogate, isLowSurrogate, utf8_codepoint.
  destruct (N.leb_spec 55296 c); [lia|]. destruct (N.leb_spec 56320 c); [lia|].
  destruct (N.ltb_spec c 128); [|lia]. cbn [andb app]. now rewrite IH.
Qed.

Lemma Buffer_from_utf8_ascii (a : list N) :
  Forall isAscii a -> Buffer_from_utf8 a = a.
Proof.
  intros H. rewrite <- (app_nil_r a) at 1.
  rewrite (Buffer_from_utf8_ascii_app _ _ H). apply app_nil_r.
Qed.

Lemma be_bytes_bound (n : nat) : forall x : N, Forall (fun b => b < 256) (be_bytes n x).
Proof.
  induction n as [|n IH]; intros x; cbn [be_bytes]; [constructor|].
  apply Forall_app. split; [apply IH|].
  constructor; [|constructor]. apply N.mod_upper_bound. lia.
Qed.

Lemma sha256_bound (msg : list N) : Forall (fun b => b < 256) (sha256 msg).
Proof.
  unfold sha256. generalize (sha256_blocks (length (sha256_pad msg)) sha256_H0 (sha256_pad msg)).
  intros ws. induction ws as [|w ws IH]; cbn [flat_map]; [constructor|].
  apply Forall_app. split; [apply be_bytes_bound | exact IH].
Qed.

Lemma hexDigit_ascii (n : N) : n < 16 -> isAscii (hexDigit n).
Proof. unfold isAscii, hexDigit. intros H. destruct (n <? 10); lia. Qed.

Lemma hex_ascii (bs : list N) :
  Forall (fun b => b < 256) bs -> Forall isAscii (hex bs).
Proof.
  induction 1 as [|b bs Hb _ IH]; cbn [hex flat_map]; [constructor|].
  constructor; [|constructor; [|exact IH]]; apply hexDigit_ascii.
  - apply N.Div0.div_lt_upper_bound. lia.
  - apply N.mod_upper_bound. lia.
Qed.

Lemma createHmac_sha256_hex_ascii (secret payload : list N) :
  Forall isAscii (createHmac_sha256_hex secret payload).
Proof. apply hex_ascii. unfold hmac_sha256. apply sha256_bound. Qed.

Lemma str_sha256_ascii : Forall isAscii (str "sha256=").
Proof. repeat constructor. Qed.

(** ** A body changed on the wire *)


(** ** The replay window *)

Lemma causes_differ :
  StaleOrFutureTimestamp <> InvalidSignature
  /\ InvalidTimestamp <> StaleOrFutureTimestamp
  /\ InvalidTimestamp <> InvalidSignature.
Proof. repeat split; intros H; vm_compute in H; discriminate H. Qed.

(** C3.  For every call in which both headers are present (neither absent
    nor empty) and the timestamp header reads as the integer [ts], with
    [ageMs = now - ts * 1000]: [verifyWebhook] fails with
    [StaleOrFutureTimestamp] if and only if [ageMs > 300000] or
    [ageMs < -60000].  In particular a timestamp older than [now] minus
    300 seconds fails so, and the timestamp 299 seconds before the current
    second passes the timestamp check: the call then succeeds or fails
    with [InvalidSignature]. *)
Theorem stale_iff_outside_window (now : Z) (body : list N)
    (headers : gmap (list N) HeaderValue) (secret sig t : list N) (ts : Z) :
  truthy (getHeader headers (str "x-fo-signature")) = Some sig ->
  truthy (getHeader headers (str "x-fo-timestamp")) = Some t ->
  parseInt t = Some ts ->
  (verifyWebhook now body headers secret = Throw StaleOrFutureTimestamp
   <-> (now - ts * 1000 > 300000 \/ now - ts * 1000 < -60000)%Z)
  /\ ((ts * 1000 < now - 300 * 1000)%Z ->
      verifyWebhook now body headers secret = Throw StaleOrFutureTimestamp)
  /\ (ts = (now / 1000 - 299)%Z ->
      verifyWebhook now body headers secret = Normal tt
      \/ verifyWebhook now body headers secret = Throw InvalidSignature).
Proof.
  intros Hs Ht Hp. rewrite (verifyWebhook_checked _ _ _ _ _ _ _ Hs Ht Hp).
  destruct causes_differ as (Hsi & _).
  pose proof (Z.mod_pos_bound now 1000 ltac:(lia)) as Hm.
  pose proof (Z.div_mod now 1000 ltac:(lia)) as Hd.
  destruct (Z.gtb_spec (now - ts * 1000) 300000) as [Hold|Hold];
    destruct (Z.ltb_spec (now - ts * 1000) (-60000)) as [Hnew|Hnew]; cbn [orb].
  1-3: repeat split; intros; try reflexivity; try lia; exfalso; lia.
  repeat split.
  - case_bool_decide; intros Hrun; [discriminate Hrun | congruence].
  - lia.
  - lia.
  - case_bool_decide; tauto.
Qed.

(** A request signed 400 seconds before it is verified is stale. *)
Lemma stale_iff_outside_window_witness :
  verifyWebhook 1700000400000 (str "{}")
    (signedHeaders (signWebhookPayload 1700000000000 (str "{}") (str "secret")))
    (str "secret")
  = Throw StaleOrFutureTimestamp.
Proof.
  refine (proj1 (proj2 (stale_iff_outside_window 1700000400000 (str "{}")
            (signedHeaders (signWebhookPayload 1700000000000 (str "{}") (str "secret")))
            (str "secret")
            (signature (signWebhookPayload 1700000000000 (str "{}") (str "secret")))
            (str "1700000000") 1700000000 _ _ _)) _).
  - vm_compute. reflexivity.
  - vm_compute. reflexivity.
  - vm_compute. reflexivity.
  - lia.
Defined.

(** ** Reading the timestamp header *)

Lemma trimStart_split (s : list N) :
  exists ws, s = ws ++ trimStart s /\ forallb isWhiteSpace ws = true.
Proof.
  induction s as [|c r (ws & E & Hws)]; [exists []; split; reflexivity|].
  cbn [trimStart]. destruct (isWhiteSpace c) eqn:Hc.
  - exists (c :: ws). cbn [app forallb]. rewrite Hc, Hws. split; [congruence | reflexivity].
  - exists []. split; reflexivity.
Qed.

Lemma trimStart_app (ws : list N) (c : N) (r : list N) :
  forallb isWhiteSpace ws = true -> isWhiteSpace c = false ->
  trimStart (ws ++ c :: r) = c :: r.
Proof.
  intros Hws Hc. induction ws as [|w ws IH]; cbn [app trimStart].
  - now rewrite Hc.
  - cbn [forallb] in Hws. apply andb_true_iff in Hws as [-> Hws]. now apply IH.
Qed.

Lemma digitPrefix_head (s : list N) (d : N) (ds : list N) :
  digitPrefix s = d :: ds -> exists rest, s = d :: rest /\ isDigit d = true.
Proof.
  destruct s as [|c r]; [discriminate|]. cbn [digitPrefix].
  destruct (isDigit c) eqn:Hc; [|discriminate].
  intros [= -> _]. now exists r.
Qed.

(** [parseInt] yields a number exactly on the strings with an integer
    prefix. *)
Lemma parseInt_is_NaN (t : list N) :
  parseInt t = None <-> ~ hasIntegerPrefix t.
Proof.
  split.
  - intros HNaN (ws & sgn & d & rest & -> & Hws & Hsgn & Hd).
    unfold parseInt in HNaN.
    pose proof (isDigit_not_space _ Hd) as Hdw.
    pose proof (isDigit_not_sign _ Hd) as Hds.
    destruct Hsgn as [-> | [-> | ->]]; cbn [app] in HNaN.
    + rewrite (trimStart_app _ _ _ Hws Hdw), Hds in HNaN.
      cbn [digitPrefix] in HNaN. rewrite Hd in HNaN. discriminate HNaN.
    + rewrite (trimStart_app ws 43 _ Hws eq_refl) in HNaN.
      change ((43 =? 43) || (43 =? 45)) with true in HNaN. cbv iota in HNaN.
      cbn [digitPrefix] in HNaN. rewrite Hd in HNaN. discriminate HNaN.
    + rewrite (trimStart_app ws 45 _ Hws eq_refl) in HNaN.
      change ((45 =? 43) || (45 =? 45)) with true in HNaN. cbv iota in HNaN.
      cbn [digitPrefix] in HNaN. rewrite Hd in HNaN. discriminate HNaN.
  - intros Hno. unfold parseInt.
    destruct (trimStart_split t) as (ws & E & Hws).
    destruct (digitPrefix _) as [|d ds] eqn:Hdp; [reflexivity|].
    exfalso. apply Hno. apply digitPrefix_head in Hdp as (rest & Hs2 & Hd).
    destruct (trimStart t) as [|c r] eqn:Ht; [discriminate Hs2|].
    destruct ((c =? 43) || (c =? 45)) eqn:Hc.
    + exists ws, [c], d, rest. rewrite E, Hs2. repeat split; try assumption.
      apply orb_true_iff in Hc as [Hc|Hc]; apply N.eqb_eq in Hc; subst c; tauto.
    + exists ws, [], d, rest. rewrite E, <- Hs2. repeat split; try assumption. tauto.
Qed.

(** C8 (as the code has it).  For every call in which both headers are
    present (neither absent nor empty), [verifyWebhook] fails with
    [InvalidTimestamp] exactly when [parseInt] finds no number in the
    x-fo-timestamp header, that is exactly when the header does not begin,
    after optional white space and one optional sign, with a decimal
    digit.  A header that begins so, whatever follows the digits, is read
    as the integer of its leading digits and goes on to the age and
    signature checks. *)
Theorem invalid_timestamp_iff_no_integer_prefix (now : Z) (body : list N)
    (headers : gmap (list N) HeaderValue) (secret sig t : list N) :
  truthy (getHeader headers (str "x-fo-signature")) = Some sig ->
  truthy (getHeader headers (str "x-fo-timestamp")) = Some t ->
  (verifyWebhook now body headers secret = Throw InvalidTimestamp
   <-> ~ hasIntegerPrefix t)
  /\ (hasIntegerPrefix t ->
      exists ts, parseInt t = Some ts
        /\ verifyWebhook now body headers secret =
             if ((now - ts * 1000 >? 300000) || (now - ts * 1000 <? -60000))%Z
             then Throw StaleOrFutureTimestamp
             else if bool_decide
                       (Buffer_from_utf8
                          (str "sha256="
                           ++ createHmac_sha256_hex secret (t ++ str "." ++ body))
                        = Buffer_from_utf8 sig)
                  then Normal tt else Throw InvalidSignature).
Proof.
  intros Hs Ht. rewrite <- parseInt_is_NaN.
  destruct causes_differ as (_ & Hts & Hti).
  destruct (parseInt t) as [ts|] eqn:Hp.
  - pose proof (verifyWebhook_checked now body _ secret _ _ _ Hs Ht Hp) as Hrun.
    split.
    + rewrite Hrun. split; [|discriminate].
      destruct (_ || _); [|case_bool_decide]; intros Hthrow;
        try discriminate Hthrow; exfalso; congruence.
    + intros _. exists ts. split; [reflexivity | exact Hrun].
  - split.
    + unfold verifyWebhook. rewrite Hs, Ht, Hp. tauto.
    + intros Hpre. apply parseInt_is_NaN in Hp. contradiction.
Qed.

(** The header ["  +42 apples"] has an integer prefix, so a call with it
    is not refused as [InvalidTimestamp]: it is read as 42. *)
Lemma invalid_timestamp_iff_no_integer_prefix_witness :
  exists ts, parseInt (str "  +42 apples") = Some ts
    /\ verifyWebhook 42000 (str "{}")
         (<[str "x-fo-signature" := HString (str "sha256=00")]>
            (<[str "x-fo-timestamp" := HString (str "  +42 apples")]> ∅))
         (str "secret")
       = if ((42000 - ts * 1000 >? 300000) || (42000 - ts * 1000 <? -60000))%Z
         then Throw StaleOrFutureTimestamp
         else if bool_decide
                   (Buffer_from_utf8
                      (str "sha256="
                       ++ createHmac_sha256_hex (str "secret")
                            (str "  +42 apples" ++ str "." ++ str "{}"))
                    = Buffer_from_utf8 (str "sha256=00"))
              then Normal tt else Throw InvalidSignature.
Proof.
  refine (proj2 (invalid_timestamp_iff_no_integer_prefix 42000 (str "{}")
            (<[str "x-fo-signature" := HString (str "sha256=00")]>
               (<[str "x-fo-timestamp" := HString (str "  +42 apples")]> ∅))
            (str "secret") (str "sha256=00") (str "  +42 apples") _ _) _).
  - vm_compute. reflexivity.
  - vm_compute. reflexivity.
  - exists (str "  "), [43], 52, (str "2 apples").
    repeat split; try reflexivity. tauto.
Defined.

(** C8, refuted as stated: the timestamp header ["123abc"] is not refused
    as [InvalidTimestamp]; it is read as 123, and with the signature of
    ["123abc.{}"] the call succeeds at the clock value 123000. *)
Lemma timestamp_with_suffix_accepted :
  parseInt (str "123abc") = Some 123%Z
  /\ verifyWebhook 123000 (str "{}")
       (<[str "x-fo-signature" :=
            HString (str "sha256="
                     ++ createHmac_sha256_hex (str "secret") (str "123abc.{}"))]>
          (<[str "x-fo-timestamp" := HString (str "123abc")]> ∅))
       (str "secret")
     = Normal tt.
Proof. split; vm_compute; reflexivity. Qed.

(** ** Headers given as arrays *)

(** [verifyWebhook] reads the headers through [getHeader] alone. *)
Lemma verifyWebhook_ext (now : Z) (body secret : list N)
    (h1 h2 : gmap (list N) HeaderValue) :
  getHeader h1 (str "x-fo-signature") = getHeader h2 (str "x-fo-signature") ->
  getHeader h1 (str "x-fo-timestamp") = getHeader h2 (str "x-fo-timestamp") ->
  verifyWebhook now body h1 secret = verifyWebhook now body h2 secret.
Proof. intros Es Et. unfold verifyWebhook. now rewrite Es, Et. Qed.

Lemma getHeader_insert (h : gmap (list N) HeaderValue) (k k' : list N)
    (v : HeaderValue) :
  getHeader (<[k := v]> h) k' =
    if decide (k = k')
    then match v with HArray l => head l | HString s => Some s end
    else getHeader h k'.
Proof.
  unfold getHeader. rewrite lookup_insert. now destruct (decide (k = k')).
Qed.

Lemma getHeader_delete (h : gmap (list N) HeaderValue) (k k' : list N) :
  getHeader (delete k h) k' = if decide (k = k') then None else getHeader h k'.
Proof.
  unfold getHeader. rewrite lookup_delete. now destruct (decide (k = k')).
Qed.

(** C10.  For every headers map, binding x-fo-signature or x-fo-timestamp
    to an array of strings makes [verifyWebhook] behave exactly as when
    that header is bound to the first element of the array; binding it to
    the empty array makes it behave exactly as when the header is absent,
    and the call then fails with a missing-header error. *)
Theorem array_header_read_as_first_element (now : Z) (body secret : list N)
    (headers : gmap (list N) HeaderValue) (s : list N) (l : list (list N)) :
  verifyWebhook now body (<[str "x-fo-signature" := HArray (s :: l)]> headers) secret
  = verifyWebhook now body (<[str "x-fo-signature" := HString s]> headers) secret
  /\ verifyWebhook now body (<[str "x-fo-timestamp" := HArray (s :: l)]> headers) secret
     = verifyWebhook now body (<[str "x-fo-timestamp" := HString s]> headers) secret
  /\ verifyWebhook now body (<[str "x-fo-signature" := HArray []]> headers) secret
     = verifyWebhook now body (delete (str "x-fo-signature") headers) secret
  /\ verifyWebhook now body (<[str "x-fo-timestamp" := HArray []]> headers) secret
     = verifyWebhook now body (delete (str "x-fo-timestamp") headers) secret
  /\ verifyWebhook now body (<[str "x-fo-signature" := HArray []]> headers) secret
     = Throw MissingSignatureHeader
  /\ verifyWebhook now body (<[str "x-fo-timestamp" := HArray []]> headers) secret
     = match truthy (getHeader headers (str "x-fo-signature")) with
       | Some _ => Throw MissingTimestampHeader
       | None => Throw MissingSignatureHeader
       end.
Proof.
  pose proof header_names_differ as Hne.
  assert (Hne' : str "x-fo-timestamp" <> str "x-fo-signature") by congruence.
  repeat split.
  1-4: apply verifyWebhook_ext;
       rewrite ?getHeader_insert, ?getHeader_delete;
       repeat case_decide; cbn [head]; congruence.
  - unfold verifyWebhook. rewrite getHeader_insert.
    rewrite decide_True by reflexivity. reflexivity.
  - unfold verifyWebhook. rewrite !getHeader_insert.
    rewrite decide_False by exact Hne'. rewrite decide_True by reflexivity.
    cbn [head truthy]. now destruct (truthy (getHeader headers _)).
Qed.

(** ** Tool construction *)

Lemma trimStart_nil_iff (s : list N) :
  trimStart s = [] <-> forallb isWhiteSpace s = true.
Proof.
  induction s as [|c r IH]; [tauto|]. cbn [trimStart forallb].
  destruct (isWhiteSpace c); cbn [andb]; [exact IH|].
  split; discriminate.
Qed.

Lemma trimStart_head (s : list N) (c : N) (r : list N) :
  trimStart s = c :: r -> isWhiteSpace c = false.
Proof.
  induction s as [|d s IH]; cbn [trimStart]; [discriminate|].
  destruct (isWhiteSpace d) eqn:Hd; [exact IH|]. intros [= -> _]. exact Hd.
Qed.

(** [trim] leaves nothing exactly of the strings made of white space. *)
Lemma trim_nil_iff (s : list N) :
  trim s = [] <-> forallb isWhiteSpace s = true.
Proof.
  rewrite <- trimStart_nil_iff. unfold trim, trimEnd. split.
  - intros H. destruct (trimStart s) as [|c r] eqn:E; [reflexivity|].
    exfalso. apply trimStart_head in E.
    apply (f_equal (@rev N)) in H. rewrite rev_involutive in H. cbn [rev] in H.
    apply trimStart_nil_iff in H. rewrite forallb_app in H. cbn [forallb] in H.
    rewrite E in H. rewrite !andb_false_r in H. discriminate H.
  - intros ->. reflexivity.
Qed.

Section DefineTool.

Context {P I R : Type}.

(** What [defineTool] checks, in its order. *)
Lemma defineTool_accepts (config : DefineToolConfig P I R) :
  (exists tool, defineTool config = Normal tool)
  <-> TOOL_NAME_REGEX_test (cfg_name config) = true
      /\ (length (cfg_name config) <= 64)%nat
      /\ forallb isWhiteSpace (cfg_description config) = false
      /\ (length (cfg_description config) <= 1024)%nat.
Proof.
  unfold defineTool.
  destruct (TOOL_NAME_REGEX_test (cfg_name config)); cbn [negb].
  2: { split; [intros [? [=]] | intros [[=] _]]. }
  destruct (Nat.ltb_spec 64 (length (cfg_name config))).
  { split; [intros [? [=]] | intros (_ & ? & _); lia]. }
  destruct (Nat.eqb_spec (length (trim (cfg_description config))) 0) as [Hb|Hb].
  { apply length_zero_iff_nil, trim_nil_iff in Hb.
    split; [intros [? [=]] | intros (_ & _ & ? & _); congruence]. }
  assert (Hblank : forallb isWhiteSpace (cfg_description config) = false).
  { destruct (forallb _ _) eqn:E; [|reflexivity].
    apply trim_nil_iff in E. rewrite E in Hb. now contradiction Hb. }
  destruct (Nat.ltb_spec 1024 (length (cfg_description config))).
  { split; [intros [? [=]] | intros (_ & _ & _ & ?); lia]. }
  split; [intros _; repeat split; (assumption || lia) | intros _; eauto].
Qed.

(** C9 (as the code has it).  [defineTool] accepts a configuration
    exactly when its name matches [^[a-z][a-z0-9_]*$] and has length at
    most 64 and, besides, its description has a character that is not
    white space and has length at most 1024.  In particular a
    configuration named [query_crm] is accepted when its description is so,
    while the names [Query_CRM], [1abc], [has-hyphen] and every name of 65
    characters make [defineTool] throw, whatever the description. *)
Theorem defineTool_accepts_iff_name_and_description_valid :
  (forall config : DefineToolConfig P I R,
     (exists tool, defineTool config = Normal tool)
     <-> TOOL_NAME_REGEX_test (cfg_name config) = true
         /\ (length (cfg_name config) <= 64)%nat
         /\ forallb isWhiteSpace (cfg_description config) = false
         /\ (length (cfg_description config) <= 1024)%nat)
  /\ (forall config : DefineToolConfig P I R,
        cfg_name config = str "query_crm" ->
        forallb isWhiteSpace (cfg_description config) = false ->
        (length (cfg_description config) <= 1024)%nat ->
        exists tool, defineTool config = Normal tool /\ name tool = str "query_crm")
  /\ (forall config : DefineToolConfig P I R,
        cfg_name config = str "Query_CRM" \/ cfg_name config = str "1abc"
        \/ cfg_name config = str "has-hyphen" \/ length (cfg_name config) = 65%nat ->
        exists message, defineTool config = Throw (Error message)).
Proof.
  split; [exact defineTool_accepts|]. split.
  - intros config Hn Hb Hl.
    destruct (proj2 (defineTool_accepts config)) as [tool Ht].
    { rewrite Hn. split; [reflexivity|]. split; [cbn; lia|]. now split. }
    exists tool. split; [exact Ht|].
    revert Ht. unfold defineTool.
    repeat match goal with |- context [if ?b then _ else _] => destruct b end;
      intros [= <-]. exact Hn.
  - intros config Hn. unfold defineTool.
    destruct (TOOL_NAME_REGEX_test (cfg_name config)) eqn:Hre; cbn [negb];
      [|eauto].
    destruct (Nat.ltb_spec 64 (length (cfg_name config))); [eauto|].
    exfalso. destruct Hn as [Hn|[Hn|[Hn|Hn]]];
      try (rewrite Hn in Hre; discriminate Hre). lia.
Qed.

End DefineTool.

(** The sample configuration named [query_crm] is accepted. *)
Lemma defineTool_accepts_iff_name_and_description_valid_witness :
  exists tool,
    defineTool (sample_config (str "query_crm") (str "Look up a contact")) = Normal tool
    /\ name tool = str "query_crm".
Proof.
  refine (proj1 (proj2 defineTool_accepts_iff_name_and_description_valid)
            (sample_config (str "query_crm") (str "Look up a contact")) _ _ _).
  - reflexivity.
  - reflexivity.
  - cbn. lia.
Defined.

(** C9, refuted as stated: the name [query_crm] matches the pattern and
    has 9 characters, yet [defineTool] throws on a configuration with this
    name and a blank description. *)
Lemma defineTool_rejects_valid_name_with_blank_description :
  TOOL_NAME_REGEX_test (str "query_crm") = true
  /\ length (str "query_crm") = 9%nat
  /\ defineTool (sample_config (str "query_crm") (str "   "))
     = Throw (Error (str "Tool " ++ quoted (str "query_crm")
                     ++ str " must have a non-empty description.")).
Proof. repeat split. Qed.

(** ** The tool handler *)

(** [verifyWebhook] throws nothing but a [WebhookVerificationError]. *)
Lemma verifyWebhook_throws_verification_error (now : Z) (body : list N)
    (headers : gmap (list N) HeaderValue) (secret : list N) (e : JsError) :
  verifyWebhook now body headers secret = Throw e ->
  exists message, e = WebhookVerificationError message.
Proof.
  unfold verifyWebhook.
  destruct (truthy (getHeader headers (str "x-fo-signature"))) as [sig|];
    [|intros [= <-]; eexists; reflexivity].
  destruct (truthy (getHeader headers (str "x-fo-timestamp"))) as [t|];
    [|intros [= <-]; eexists; reflexivity].
  destruct (parseInt t) as [ts|]; [|intros [= <-]; eexists; reflexivity].
  destruct (_ || _); [intros [= <-]; eexists; reflexivity|].
  set (expected := Buffer_from_utf8 _). set (received := Buffer_from_utf8 sig).
  destruct (Nat.eqb_spec (length expected) (length received)) as [Hlen|Hlen];
    cbn [negb]; [|intros [= <-]; eexists; reflexivity].
  rewrite (timingSafeEqual_spec _ _ Hlen).
  destruct (bool_decide _); [discriminate | intros [= <-]; eexists; reflexivity].
Qed.

Lemma setProperty_lookup (env : gmap (list N) EnvValue) (key k : list N)
    (val : EnvValue) :
  setProperty env key val !! k
  = if bool_decide (k = key /\ key <> str "__proto__") then Some val else env !! k.
Proof.
  unfold setProperty. case_bool_decide as Hp.
  - rewrite bool_decide_eq_false_2; [reflexivity | tauto].
  - destruct (decide (k = key)) as [->|Hne].
    + rewrite lookup_insert_eq, bool_decide_eq_true_2; [reflexivity | tauto].
    + rewrite lookup_insert_ne by congruence.
      rewrite bool_decide_eq_false_2; [reflexivity | tauto].
Qed.

Lemma injectEnv_fold (process_env : gmap (list N) (list N))
    (declared : list (list N)) : forall (acc : gmap (list N) EnvValue) (k : list N),
  fold_left (fun env key =>
               match process_env_get process_env key with
               | Some val => setProperty env key val
               | None => env
               end) declared acc !! k
  = if bool_decide (k ∈ declared /\ k <> str "__proto__")
    then match process_env_get process_env k with
         | Some v => Some v
         | None => acc !! k
         end
    else acc !! k.
Proof.
  induction declared as [|key declared IH]; intros acc k; cbn [fold_left].
  - rewrite bool_decide_eq_false_2; [reflexivity|].
    intros [H _]. now apply not_elem_of_nil in H.
  - rewrite IH.
    assert (Hacc : match process_env_get process_env key with
                   | Some val => setProperty acc key val
                   | None => acc
                   end !! k
                   = if bool_decide (k = key /\ key <> str "__proto__")
                     then match process_env_get process_env k with
                          | Some v => Some v
                          | None => acc !! k
                          end
                     else acc !! k).
    { destruct (process_env_get process_env key) as [v|] eqn:Hv.
      - rewrite setProperty_lookup.
        case_bool_decide as H; [destruct H as [-> _]; now rewrite Hv | reflexivity].
      - case_bool_decide as H; [destruct H as [-> _]; now rewrite Hv | reflexivity]. }
    rewrite Hacc.
    destruct (process_env_get process_env k) as [v|];
      repeat case_bool_decide; try reflexivity; exfalso;
      repeat match goal with
             | H : ~ (_ /\ _) |- _ => apply H; clear H
             | H : _ /\ _ |- _ => destruct H as [? ?]
             | H : _ ∈ _ :: _ |- _ => apply elem_of_cons in H as [H|H]
             end; subst; try (split; [apply elem_of_cons|]); tauto.
Qed.

(** The own properties of the environment handed to a tool. *)
Lemma injectEnv_lookup (process_env : gmap (list N) (list N))
    (declared : list (list N)) (k : list N) :
  injectEnv process_env declared !! k
  = if bool_decide (k ∈ declared /\ k <> str "__proto__")
    then process_env_get process_env k else None.
Proof.
  unfold injectEnv. rewrite injectEnv_fold, lookup_empty.
  case_bool_decide; [now destruct (process_env_get process_env k) | reflexivity].
Qed.

Section Handler.

Context {P I R : Type}.
Context {stringifyIssues : JSONStringify I} {stringifyResult : JSONStringify R}.
Variables (tool : FoTool P I R) (secret : list N)
          (process_env : gmap (list N) (list N)) (now : Z)
          (req : IncomingMessage).

Local Abbreviation run := (createToolHandler tool secret process_env now req).
Local Abbreviation validated := (validated tool secret now req).
Local Abbreviation contextFor := (contextFor tool process_env).

(** Every run of the handler is one of these. *)
Lemma handler_cases :
  (method req <> Some (str "POST")
   /\ run = ([SendJson 405 (ErrorBody (str "Method not allowed"))], Normal tt))
  \/ (method req = Some (str "POST") /\ readBody req = None
      /\ run = ([SendJson 400 (ErrorBody (str "Failed to read request body"))],
                Normal tt))
  \/ (exists rawBody message,
        method req = Some (str "POST") /\ readBody req = Some rawBody
        /\ verifyWebhook now rawBody (headers req) secret
           = Throw (WebhookVerificationError message)
        /\ run = ([SendJson 401 (ErrorBody message)], Normal tt))
  \/ (exists rawBody,
        method req = Some (str "POST") /\ readBody req = Some rawBody
        /\ verifyWebhook now rawBody (headers req) secret = Normal tt
        /\ JSON_parse rawBody = None
        /\ run = ([SendJson 400 (ErrorBody (str "Invalid JSON body"))], Normal tt))
  \/ (exists rawBody err,
        method req = Some (str "POST") /\ readBody req = Some rawBody
        /\ verifyWebhook now rawBody (headers req) secret = Normal tt
        /\ JSON_parse rawBody = Some JNull
        /\ getProp JNull (str "params") = Throw err
        /\ run = ([], Throw err))
  \/ (exists rawBody payload raw issues,
        method req = Some (str "POST") /\ readBody req = Some rawBody
        /\ verifyWebhook now rawBody (headers req) secret = Normal tt
        /\ JSON_parse rawBody = Some payload
        /\ getProp payload (str "params") = Normal raw
        /\ safeParse (parameters tool) raw = ParseFailure issues
        /\ stringifyThrows issues = None
        /\ run = ([SendJson 422
                     (InvalidParametersBody (str "Invalid tool parameters") issues)],
                  Normal tt))
  \/ (exists rawBody payload raw issues thrown,
        method req = Some (str "POST") /\ readBody req = Some rawBody
        /\ verifyWebhook now rawBody (headers req) secret = Normal tt
        /\ JSON_parse rawBody = Some payload
        /\ getProp payload (str "params") = Normal raw
        /\ safeParse (parameters tool) raw = ParseFailure issues
        /\ stringifyThrows issues = Some thrown
        /\ run = ([WriteHead 422], Throw thrown))
  \/ (exists rawBody payload raw data ctx result,
        validated rawBody payload raw data /\ contextFor payload ctx
        /\ execute tool data ctx = Resolved result
        /\ stringifyThrows result = None
        /\ run = ([Execute data ctx; SendJson 200 (SuccessBody result)], Normal tt))
  \/ (exists rawBody payload raw data ctx result thrown,
        validated rawBody payload raw data /\ contextFor payload ctx
        /\ execute tool data ctx = Resolved result
        /\ stringifyThrows result = Some thrown
        /\ run = ([Execute data ctx; WriteHead 200;
                   ConsoleError (name tool) (log_requestId (ctx_log ctx))
                     (ThrownError (errorMessage thrown))],
                  Throw ERR_HTTP_HEADERS_SENT))
  \/ (exists rawBody payload raw data ctx err,
        validated rawBody payload raw data /\ contextFor payload ctx
        /\ execute tool data ctx = Rejected err
        /\ run = ([Execute data ctx;
                   ConsoleError (name tool) (log_requestId (ctx_log ctx)) err;
                   SendJson 500 (FailureBody (failureMessage err))],
                  Normal tt)).
Proof.
  unfold createToolHandler, catchBlock, sendJson. cbn [bodyThrows].
  case_bool_decide as Hm; cbn [negb]; [|left; split; [exact Hm | reflexivity]].
  right. destruct (readBody req) as [rawBody|] eqn:Hbody;
    [|left; repeat split; try assumption; try reflexivity].
  right. destruct (verifyWebhook now rawBody (headers req) secret) as [[]|e] eqn:Hv.
  2: { destruct (verifyWebhook_throws_verification_error _ _ _ _ _ Hv) as [m ->].
       left. exists rawBody, m. repeat split; try assumption; try reflexivity. }
  right. destruct (JSON_parse rawBody) as [payload|] eqn:Hj;
    [|left; exists rawBody; repeat split; try assumption; try reflexivity].
  right. destruct (getProp payload (str "params")) as [raw|err] eqn:Hp.
  2: { left. exists rawBody, err.
       destruct payload; try discriminate Hp. repeat split; try assumption; try reflexivity. }
  right. destruct (safeParse (parameters tool) raw) as [data|issues] eqn:Hz.
  2: { destruct (stringifyThrows issues) as [thrown|] eqn:Hs.
       - right. left. exists rawBody, payload, raw, issues, thrown.
         repeat split; try assumption; try reflexivity.
       - left. exists rawBody, payload, raw, issues.
         repeat split; try assumption; try reflexivity. }
  do 2 right.
  destruct (getProp payload (str "context")) as [spread|e1] eqn:Hc;
    [|destruct payload; discriminate].
  destruct (getProp payload (str "requestId")) as [rid|e2] eqn:Hr;
    [|destruct payload; discriminate].
  set (ctx := {| ctx_spread := spread;
                 ctx_env := injectEnv process_env (env tool);
                 ctx_log := {| log_tool := name tool; log_requestId := rid |} |}).
  assert (Hval : validated rawBody payload raw data) by (repeat split; assumption).
  assert (Hctx : contextFor payload ctx) by (repeat split; assumption).
  destruct (execute tool data ctx) as [result|err] eqn:He.
  - destruct (stringifyThrows result) as [thrown|] eqn:Hs.
    + right. left. exists rawBody, payload, raw, data, ctx, result, thrown.
      now repeat split.
    + left. exists rawBody, payload, raw, data, ctx, result. now repeat split.
  - do 2 right. exists rawBody, payload, raw, data, ctx, err. now repeat split.
Qed.

End Handler.

(** The cases of [handler_cases], with the equation of the run as [E]. *)
Ltac run_cases tool secret process_env now req :=
  destruct (handler_cases tool secret process_env now req) as
    [(Hm & E)
    | [(Hm & Hb & E)
    | [(rawBody & message & Hm & Hb & Hv & E)
    | [(rawBody & Hm & Hb & Hv & Hj & E)
    | [(rawBody & thrown & Hm & Hb & Hv & Hj & Hp & E)
    | [(rawBody & payload & raw & issues & Hm & Hb & Hv & Hj & Hp & Hz & Hs & E)
    | [(rawBody & payload & raw & issues & thrown
        & Hm & Hb & Hv & Hj & Hp & Hz & Hs & E)
    | [(rawBody & payload & raw & data & context & result
        & Hval & Hctx & He & Hs & E)
    | [(rawBody & payload & raw & data & context & result & thrown
        & Hval & Hctx & He & Hs & E)
    | (rawBody & payload & raw & data & context & err
       & Hval & Hctx & He & E)]]]]]]]]].

(** Membership in a list given by its elements. *)
Ltac elements H :=
  cbn [fst] in H;
  repeat (apply elem_of_cons in H as [H|H]; try discriminate H);
  try (now apply not_elem_of_nil in H).

Section HandlerClaims.

Context {P I R : Type}.
Context {stringifyIssues : JSONStringify I} {stringifyResult : JSONStringify R}.
Variables (tool : FoTool P I R) (secret : list N)
          (process_env : gmap (list N) (list N)) (now : Z)
          (req : IncomingMessage).

Local Abbreviation run := (createToolHandler tool secret process_env now req).
Local Abbreviation validated := (validated tool secret now req).
Local Abbreviation contextFor := (contextFor tool process_env).

(** A call of [execute] in a run went through every stage. *)
Lemma execute_event_validated (params : P) (ctx : ToolContext) :
  Execute params ctx ∈ run.1 ->
  exists rawBody payload raw,
    validated rawBody payload raw params /\ contextFor payload ctx.
Proof.
  intros Hin.
  run_cases tool secret process_env now req; rewrite E in Hin; elements Hin;
    injection Hin as -> ->; exists rawBody, payload, raw; split; assumption.
Qed.

(** C4.  [execute] is called only on a POST request whose body was
    read, whose signature was verified, whose body parsed as JSON and whose
    [params] the schema validated, and only with the value [safeParse]
    produced; when verification, parsing or validation fails, [execute] is
    not called with anything. *)
Theorem execute_only_with_validated_params (params : P) (ctx : ToolContext) :
  (Execute params ctx ∈ run.1 ->
   exists rawBody payload raw,
     validated rawBody payload raw params /\ contextFor payload ctx)
  /\ (forall rawBody,
        readBody req = Some rawBody ->
        (exists e, verifyWebhook now rawBody (headers req) secret = Throw e)
        \/ JSON_parse rawBody = None
        \/ (exists payload raw issues,
              JSON_parse rawBody = Some payload
              /\ getProp payload (str "params") = Normal raw
              /\ safeParse (parameters tool) raw = ParseFailure issues) ->
        forall data context, Execute data context ∉ run.1).
Proof.
  split; [apply execute_event_validated|].
  intros rawBody Hbody Hfail data context Hin.
  destruct (execute_event_validated _ _ Hin)
    as (b & p & r & (_ & Hb & Hv & Hj & Hp & Hz) & _).
  rewrite Hbody in Hb. injection Hb as <-.
  destruct Hfail as [[e He] | [Hnone | (p' & r' & i & Hj' & Hp' & Hz')]];
    congruence.
Qed.

End HandlerClaims.

(** A signed request with valid parameters reaches [execute] with the
    validated value. *)
Lemma execute_only_with_validated_params_witness :
  exists rawBody payload raw,
    validated sample_tool (str "secret") 1700000000123 sample_request
      rawBody payload raw (str "21")
    /\ contextFor sample_tool sample_process_env payload sample_context.
Proof.
  refine (proj1 (execute_only_with_validated_params sample_tool (str "secret")
                   sample_process_env 1700000000123 sample_request
                   (str "21") sample_context) _).
  vm_compute. apply list_elem_of_here.
Defined.

(** C5, on a declared name that [Object.prototype] defines: the sample
    tool declaring [SALESFORCE_TOKEN] and [constructor], in an ambient
    environment that sets the first and not the second, is called with an
    [env] that binds [constructor] all the same, to the inherited member
    and not to a string. *)
Theorem context_env_binds_inherited_constructor :
  sample_process_env !! str "constructor" = None
  /\ exists ctx,
       (createToolHandler proto_tool (str "secret") sample_process_env
          1700000000123 sample_request).1
       = [Execute (str "21") ctx;
          SendJson 200 (SuccessBody (JObject [(str "value", JNumber (str "21"))]))]
       /\ ctx_env ctx !! str "SALESFORCE_TOKEN" = Some (EnvString (str "tok_123"))
       /\ ctx_env ctx !! str "constructor"
          = Some (EnvInherited (str "constructor")).
Proof.
  split; [vm_compute; reflexivity|].
  eexists. split; [vm_compute; reflexivity|].
  split; vm_compute; reflexivity.
Qed.

(** C6, on a result that cannot be serialised: for a correctly signed
    request with valid parameters to a tool whose [execute] resolves with a
    [BigInt], the handler calls [execute], writes the head of the response
    200, logs the error [JSON.stringify] threw, and throws on the head of
    the response 500; no response is sent. *)
Theorem bigint_result_gets_no_response :
  exists ctx result,
    execute count_tool (str "21") ctx = Resolved result
    /\ createToolHandler count_tool (str "secret") sample_process_env
         1700000000123 sample_request
       = ([Execute (str "21") ctx;
           WriteHead 200;
           ConsoleError (str "count_tool") (Some (JString (str "req_test_123")))
             (ThrownError (str "Do not know how to serialize a BigInt"))],
          Throw (Error (str "Cannot write headers after they are sent to the client")))
    /\ statuses (createToolHandler count_tool (str "secret") sample_process_env
                   1700000000123 sample_request).1 = [].
Proof.
  do 2 eexists. split; [|split]; [|vm_compute; reflexivity|vm_compute; reflexivity].
  reflexivity.
Qed.

(** C7, on the body [null]: a POST request whose body is the JSON text
    [null], correctly signed, makes the handler throw a [TypeError] when it
    reads [payload.params]; no response is sent. *)
Theorem handler_throws_on_null_body :
  createToolHandler sample_tool (str "secret") sample_process_env 1700000000123
    (signedRequest 1700000000123 (str "null") (str "secret"))
  = ([], Throw (TypeError (str "Cannot read properties of null (reading 'params')"))).
Proof. vm_compute. reflexivity. Qed.

(* ================================================================== *)
(** * Further properties *)

(** ** What [verifyWebhook] accepts *)

Lemma utf8_codepoint_head (c : N) :
  128 <= c -> exists b bs, utf8_codepoint c = b :: bs /\ 128 <= b.
Proof.
  intros Hc. unfold utf8_codepoint.
  destruct (N.ltb_spec c 128); [lia|].
  assert (Hle : forall k x, 128 <= k -> 128 <= k + x) by (intros; lia).
  destruct (c <? 2048); [eexists _, _; split; [reflexivity | now apply Hle]|].
  destruct (c <? 65536); eexists _, _; (split; [reflexivity | now apply Hle]).
Qed.

(** A string whose UTF-8 encoding is ASCII text is that text. *)
Lemma Buffer_from_utf8_ascii_inv (s : list N) : forall a : list N,
  Forall isAscii a -> Buffer_from_utf8 s = a -> s = a.
Proof.
  induction s as [|c r IH]; intros a Ha E; [now rewrite <- E|].
  cbn [Buffer_from_utf8] in E.
  assert (Hhigh : forall b bs, a = b :: bs -> 128 <= b -> False).
  { intros b bs -> Hb. apply Forall_inv in Ha. unfold isAscii in Ha. lia. }
  destruct (isHighSurrogate c) eqn:Hh.
  { exfalso. destruct r as [|d r'].
    - apply (Hhigh 239 [191; 189]); [now rewrite <- E | lia].
    - destruct (isLowSurrogate d).
      + destruct (utf8_codepoint_head (65536 + (c - 55296) * 1024 + (d - 56320)))
          as (b & bs & Eb & Hb); [lia|].
        rewrite Eb in E. apply (Hhigh b (bs ++ Buffer_from_utf8 r')); [now rewrite <- E | exact Hb].
      + apply (Hhigh 239 ([191; 189] ++ Buffer_from_utf8 (d :: r'))); [now rewrite <- E | lia]. }
  destruct (isLowSurrogate c) eqn:Hl.
  { exfalso. apply (Hhigh 239 ([191; 189] ++ Buffer_from_utf8 r)); [now rewrite <- E | lia]. }
  destruct (N.ltb_spec c 128) as [Hc|Hc].
  - unfold utf8_codepoint in E. rewrite (proj2 (N.ltb_lt _ _) Hc) in E.
    cbn [app] in E. subst a. f_equal. apply IH; [|reflexivity].
    now apply Forall_inv_tail in Ha.
  - exfalso. destruct (utf8_codepoint_head c Hc) as (b & bs & Eb & Hb).
    rewrite Eb in E. apply (Hhigh b (bs ++ Buffer_from_utf8 r)); [now rewrite <- E | exact Hb].
Qed.

Lemma truthy_Some (v : option (list N)) (s : list N) :
  truthy v = Some s <-> v = Some s /\ s <> [].
Proof.
  destruct v as [[|c r]|]; cbn [truthy]; split.
  - discriminate.
  - intros [[= <-] Hne]. now contradiction Hne.
  - intros [= <-]. split; [reflexivity | discriminate].
  - intros [[= <-] _]. reflexivity.
  - discriminate.
  - intros [[=] _].
Qed.

(** X1.  [verifyWebhook] returns exactly when the x-fo-timestamp header
    reads as an integer [ts] with [-60000 <= now - ts * 1000 <= 300000] and
    the x-fo-signature header is, code unit for code unit, the text
    [sha256=] followed by the lower-case hexadecimal HMAC-SHA256 of
    [timestamp.body] under the secret. *)
Theorem verifyWebhook_accepts_iff (now : Z) (body : list N)
    (headers : gmap (list N) HeaderValue) (secret : list N) :
  verifyWebhook now body headers secret = Normal tt
  <-> exists (t : list N) (ts : Z),
        getHeader headers (str "x-fo-timestamp") = Some t
        /\ parseInt t = Some ts
        /\ (-60000 <= now - ts * 1000 <= 300000)%Z
        /\ getHeader headers (str "x-fo-signature")
           = Some (str "sha256=" ++ createHmac_sha256_hex secret (t ++ str "." ++ body)).
Proof.
  assert (Hexp : forall t, Forall isAscii
            (str "sha256=" ++ createHmac_sha256_hex secret (t ++ str "." ++ body))).
  { intros t. apply Forall_app. split;
      [exact str_sha256_ascii | apply createHmac_sha256_hex_ascii]. }
  split.
  - intros Hrun. unfold verifyWebhook in Hrun.
    destruct (truthy (getHeader headers (str "x-fo-signature"))) as [sig|] eqn:Hs;
      [|discriminate Hrun].
    destruct (truthy (getHeader headers (str "x-fo-timestamp"))) as [t|] eqn:Ht;
      [|discriminate Hrun].
    destruct (parseInt t) as [ts|] eqn:Hp; [|discriminate Hrun].
    pose proof (verifyWebhook_checked now body _ secret _ _ _ Hs Ht Hp) as Hc.
    unfold verifyWebhook in Hc. rewrite Hs, Ht, Hp in Hc. rewrite Hc in Hrun. clear Hc.
    apply truthy_Some in Hs as [Hs _]. apply truthy_Some in Ht as [Ht _].
    destruct (Z.gtb_spec (now - ts * 1000) 300000);
      destruct (Z.ltb_spec (now - ts * 1000) (-60000)); try discriminate Hrun.
    cbn [orb] in Hrun. case_bool_decide as Hb; [|discriminate Hrun].
    exists t, ts. repeat split; try assumption; try lia.
    rewrite Hs. f_equal. symmetry in Hb.
    rewrite (Buffer_from_utf8_ascii _ (Hexp t)) in Hb.
    exact (Buffer_from_utf8_ascii_inv _ _ (Hexp t) Hb).
  - intros (t & ts & Ht & Hp & Hw & Hs).
    assert (Htt : truthy (getHeader headers (str "x-fo-timestamp")) = Some t).
    { apply truthy_Some. split; [exact Ht|]. intros ->. discriminate Hp. }
    assert (Hst : truthy (getHeader headers (str "x-fo-signature"))
                  = Some (str "sha256=" ++ createHmac_sha256_hex secret (t ++ str "." ++ body))).
    { apply truthy_Some. split; [exact Hs | discriminate]. }
    rewrite (verifyWebhook_checked now body _ secret _ _ _ Hst Htt Hp).
    destruct (Z.gtb_spec (now - ts * 1000) 300000); [lia|].
    destruct (Z.ltb_spec (now - ts * 1000) (-60000)); [lia|].
    cbn [orb]. now rewrite bool_decide_eq_true_2.
Qed.

(** ** Signed payloads *)

(** Verifying, at the clock value [now'], a body with headers that carry
    what [signWebhookPayload] gave for it at [now]. *)
Lemma verifyWebhook_signed (now now' : Z) (B S : list N)
    (headers : gmap (list N) HeaderValue) :
  getHeader headers (str "x-fo-signature")
    = Some (signature (signWebhookPayload now B S)) ->
  getHeader headers (str "x-fo-timestamp")
    = Some (timestamp (signWebhookPayload now B S)) ->
  verifyWebhook now' B headers S =
    if outsideWindow now' (now / 1000) then Throw StaleOrFutureTimestamp
    else Normal tt.
Proof.
  intros Hs Ht.
  rewrite (verifyWebhook_checked now' B headers S
             (signature (signWebhookPayload now B S))
             (Number_toString (now / 1000)) (now / 1000)%Z).
  - unfold outsideWindow. destruct (_ || _); [reflexivity|].
    cbn [signWebhookPayload signature]. now rewrite bool_decide_eq_true_2.
  - rewrite Hs. reflexivity.
  - rewrite Ht. apply Number_toString_truthy.
  - apply parseInt_Number_toString.
Qed.

(** X2.  A payload signed at the clock value [now] is accepted at every
    clock value [now'] from 60000 ms before to 300000 ms after the second
    it was signed in, any number of times, and refused as
    [StaleOrFutureTimestamp] at every other. *)
Theorem signed_payload_accepted_exactly_in_window (now now' : Z) (B S : list N) :
  verifyWebhook now' B (signedHeaders (signWebhookPayload now B S)) S =
    if outsideWindow now' (now / 1000) then Throw StaleOrFutureTimestamp
    else Normal tt.
Proof.
  destruct (getHeader_signedHeaders (signWebhookPayload now B S)) as [Hs Ht].
  now apply verifyWebhook_signed.
Qed.

(** X3.  The headers [createMockWebhookRequest] returns verify against
    the body it signed, under the same secret, at every clock value in the
    window of the signing and at no other; its three other headers do not
    matter. *)
Theorem mock_request_headers_verify (now now' : Z) (body secret : list N) :
  verifyWebhook now' body
    (createMockWebhookRequest_headers (signWebhookPayload now body secret)) secret =
    if outsideWindow now' (now / 1000) then Throw StaleOrFutureTimestamp
    else Normal tt.
Proof.
  apply verifyWebhook_signed; unfold createMockWebhookRequest_headers, getHeader.
  - rewrite lookup_insert_ne by (intros H; vm_compute in H; discriminate H).
    now rewrite lookup_insert_eq.
  - rewrite !lookup_insert_ne by (intros H; vm_compute in H; discriminate H).
    now rewrite lookup_insert_eq.
Qed.

(** X4.  Headers under any other name do not change what [verifyWebhook]
    does; names are compared as they are, so a header named
    [X-Fo-Signature] is not the signature header. *)
Theorem verifyWebhook_ignores_other_headers (now : Z) (body secret : list N)
    (headers : gmap (list N) HeaderValue) (k : list N) (v : HeaderValue) :
  k <> str "x-fo-signature" -> k <> str "x-fo-timestamp" ->
  verifyWebhook now body (<[k := v]> headers) secret
  = verifyWebhook now body headers secret
  /\ verifyWebhook now body (delete k headers) secret
     = verifyWebhook now body headers secret.
Proof.
  intros Hs Ht.
  split; apply verifyWebhook_ext;
    rewrite ?getHeader_insert, ?getHeader_delete; now case_decide.
Qed.

(** A signature sent under the name [X-Fo-Signature] is not seen. *)
Lemma verifyWebhook_ignores_other_headers_witness :
  verifyWebhook 1700000000123 (str "{}")
    (<[str "X-Fo-Signature" :=
         HString (signature (signWebhookPayload 1700000000123 (str "{}") (str "secret")))]>
       (<[str "x-fo-timestamp" := HString (str "1700000000")]> ∅))
    (str "secret")
  = verifyWebhook 1700000000123 (str "{}")
      (<[str "x-fo-timestamp" := HString (str "1700000000")]> ∅) (str "secret")
  /\ verifyWebhook 1700000000123 (str "{}")
       (<[str "x-fo-timestamp" := HString (str "1700000000")]> ∅) (str "secret")
     = Throw MissingSignatureHeader.
Proof.
  split.
  - refine (proj1 (verifyWebhook_ignores_other_headers 1700000000123 (str "{}")
                     (str "secret") _ (str "X-Fo-Signature") _ _ _)).
    + intros H. vm_compute in H. discriminate H.
    + intros H. vm_compute in H. discriminate H.
  - vm_compute. reflexivity.
Defined.

(** ** The format of a signature *)

Lemma sha256_blocks_length (fuel : nat) : forall h bs : list N,
  length h = 8%nat -> length (sha256_blocks fuel h bs) = 8%nat.
Proof.
  induction fuel as [|f IH]; intros h bs Hh; [exact Hh|].
  cbn [sha256_blocks]. destruct bs; [exact Hh|]. apply IH. reflexivity.
Qed.

Lemma be_bytes_length (n : nat) : forall x : N, length (be_bytes n x) = n.
Proof.
  induction n as [|n IH]; intros x; cbn [be_bytes]; [reflexivity|].
  rewrite length_app, IH. cbn. lia.
Qed.

Lemma sha256_length (msg : list N) : length (sha256 msg) = 32%nat.
Proof.
  unfold sha256.
  pose proof (sha256_blocks_length (length (sha256_pad msg)) sha256_H0
                (sha256_pad msg) eq_refl) as Hl.
  destruct (sha256_blocks _ _ _) as [|a [|b [|c [|d [|e [|f [|g [|h [|? ?]]]]]]]]];
    try discriminate Hl.
  cbn [flat_map]. rewrite !length_app, !be_bytes_length. reflexivity.
Qed.

Lemma hex_length (bs : list N) : length (hex bs) = (2 * length bs)%nat.
Proof.
  induction bs as [|b bs IH]; [reflexivity|].
  change (hex (b :: bs)) with (hexDigit (b / 16) :: hexDigit (b mod 16) :: hex bs).
  cbn [length]. rewrite IH. lia.
Qed.

Lemma hexDigit_lower (n : N) : n < 16 -> isHexLower (hexDigit n) = true.
Proof.
  intros Hn. unfold isHexLower, hexDigit, isDigit.
  destruct (N.ltb_spec n 10).
  - apply orb_true_intro. left. apply andb_true_intro. split; apply N.leb_le; lia.
  - apply orb_true_intro. right. apply andb_true_intro. split; apply N.leb_le; lia.
Qed.

Lemma hex_lower (bs : list N) :
  Forall (fun b => b < 256) bs -> forallb isHexLower (hex bs) = true.
Proof.
  induction 1 as [|b bs Hb _ IH]; [reflexivity|].
  change (hex (b :: bs)) with (hexDigit (b / 16) :: hexDigit (b mod 16) :: hex bs).
  cbn [forallb]. rewrite IH.
  rewrite !hexDigit_lower; [reflexivity| |].
  - apply N.mod_upper_bound. lia.
  - apply N.Div0.div_lt_upper_bound. lia.
Qed.

(** X5.  The signature [signWebhookPayload] returns is [sha256=] followed
    by 64 lower-case hexadecimal digits, 71 characters in all, and its
    timestamp is a decimal text that [parseInt] reads back as the second
    of the signing. *)
Theorem signWebhookPayload_format (now : Z) (body secret : list N) :
  let sp := signWebhookPayload now body secret in
  (exists digest,
     signature sp = str "sha256=" ++ digest
     /\ length digest = 64%nat
     /\ forallb isHexLower digest = true)
  /\ length (signature sp) = 71%nat
  /\ parseInt (timestamp sp) = Some (now / 1000)%Z.
Proof.
  cbv zeta. cbn [signWebhookPayload signature timestamp].
  assert (Hlen : length (createHmac_sha256_hex secret
                           (Number_toString (now / 1000) ++ str "." ++ body)) = 64%nat).
  { unfold createHmac_sha256_hex, hmac_sha256. now rewrite hex_length, sha256_length. }
  split; [|split].
  - eexists. split; [reflexivity|]. split; [exact Hlen|].
    apply hex_lower. unfold hmac_sha256. apply sha256_bound.
  - rewrite length_app, Hlen. reflexivity.
  - apply parseInt_Number_toString.
Qed.

(** ** What [verifyWebhook] throws *)

(** The errors of [verifyWebhook]. *)
Lemma verifyWebhook_throw_cases (now : Z) (body : list N)
    (headers : gmap (list N) HeaderValue) (secret : list N) (e : JsError) :
  verifyWebhook now body headers secret = Throw e ->
  e = MissingSignatureHeader \/ e = MissingTimestampHeader
  \/ e = InvalidTimestamp \/ e = StaleOrFutureTimestamp \/ e = InvalidSignature.
Proof.
  unfold verifyWebhook.
  destruct (truthy (getHeader headers (str "x-fo-signature"))) as [sig|];
    [|intros [= <-]; tauto].
  destruct (truthy (getHeader headers (str "x-fo-timestamp"))) as [t|];
    [|intros [= <-]; tauto].
  destruct (parseInt t) as [ts|]; [|intros [= <-]; tauto].
  destruct (_ || _); [intros [= <-]; tauto|].
  set (expected := Buffer_from_utf8 _). set (received := Buffer_from_utf8 sig).
  destruct (Nat.eqb_spec (length expected) (length received)) as [Hlen|Hlen];
    cbn [negb]; [|intros [= <-]; tauto].
  rewrite (timingSafeEqual_spec _ _ Hlen).
  destruct (bool_decide _); [discriminate | intros [= <-]; tauto].
Qed.

(** X6.  [verifyWebhook] throws nothing but a [WebhookVerificationError]
    with one of five fixed messages; in particular [timingSafeEqual] never
    throws in it. *)
Theorem verifyWebhook_throws_one_of_five (now : Z) (body : list N)
    (headers : gmap (list N) HeaderValue) (secret : list N) (e : JsError) :
  verifyWebhook now body headers secret = Throw e ->
  e = MissingSignatureHeader \/ e = MissingTimestampHeader
  \/ e = InvalidTimestamp \/ e = StaleOrFutureTimestamp \/ e = InvalidSignature.
Proof. apply verifyWebhook_throw_cases. Qed.

(** With no header at all the signature header is reported missing. *)
Lemma verifyWebhook_throws_one_of_five_witness :
  MissingSignatureHeader = MissingSignatureHeader
  \/ MissingSignatureHeader = MissingTimestampHeader
  \/ MissingSignatureHeader = InvalidTimestamp
  \/ MissingSignatureHeader = StaleOrFutureTimestamp
  \/ MissingSignatureHeader = InvalidSignature.
Proof.
  refine (verifyWebhook_throws_one_of_five 0 (str "{}") ∅ (str "secret")
            MissingSignatureHeader _).
  reflexivity.
Defined.

(** ** More on the tool handler *)

Section HandlerRuns.

Context {P I R : Type}.
Context {stringifyIssues : JSONStringify I} {stringifyResult : JSONStringify R}.
Variables (tool : FoTool P I R) (secret : list N)
          (process_env : gmap (list N) (list N)).

(** X7.  A run never sends two responses, and the promise of the handler
    tells whether one went out: when it is fulfilled exactly one response
    was sent, and when it is rejected none was. *)
Theorem handler_answers_once_or_rejects (now : Z) (req : IncomingMessage) :
  let run := createToolHandler tool secret process_env now req in
  (length (statuses run.1) <= 1)%nat
  /\ (run.2 = Normal tt -> exists status, statuses run.1 = [status])
  /\ (forall e, run.2 = Throw e -> statuses run.1 = []).
Proof.
  cbv zeta.
  run_cases tool secret process_env now req; rewrite E;
    cbn [fst snd statuses flat_map app length];
    (split; [lia|]); (split; [intros H | intros e H]);
    first [discriminate H | reflexivity | eexists; reflexivity].
Qed.

(** X8.  In every run [execute] is called at most once; a response 200 or
    500 is sent only in a run that called it; and a run that called it and
    whose promise is fulfilled sent 200 or 500 and nothing else. *)
Theorem execute_once_before_200_or_500 (now : Z) (req : IncomingMessage) :
  let run := createToolHandler tool secret process_env now req in
  (length (executions run.1) <= 1)%nat
  /\ (200%Z ∈ statuses run.1 \/ 500%Z ∈ statuses run.1 ->
      length (executions run.1) = 1%nat)
  /\ (executions run.1 <> [] -> run.2 = Normal tt ->
      statuses run.1 = [200%Z] \/ statuses run.1 = [500%Z]).
Proof.
  cbv zeta.
  run_cases tool secret process_env now req; rewrite E;
    cbn [fst snd executions statuses flat_map app length];
    (split; [lia|]); (split; [|first [tauto | discriminate | now intros H]]);
    try reflexivity; intros [H|H]; elements H;
    try (apply list_elem_of_singleton in H; discriminate H).
Qed.

(** X9.  A request signed at the clock value [now] with the secret of the
    handler and handled at [now'] is answered 401, with the stale-timestamp
    message and without any other effect, when [now'] is outside the window
    of the signing; inside the window it is never answered 401 or 405, and
    a body that is not JSON is answered 400. *)
Theorem signed_request_unauthorized_iff_outside_window
    (now now' : Z) (body : list N) :
  let run := createToolHandler tool secret process_env now'
               (signedRequest now body secret) in
  (outsideWindow now' (now / 1000) = true ->
   run = ([SendJson 401 (ErrorBody (errorMessage StaleOrFutureTimestamp))],
          Normal tt))
  /\ (outsideWindow now' (now / 1000) = false ->
      (401%Z ∉ statuses run.1) /\ (405%Z ∉ statuses run.1)
      /\ (JSON_parse body = None ->
          run = ([SendJson 400 (ErrorBody (str "Invalid JSON body"))], Normal tt))).
Proof.
  cbv zeta.
  assert (Hsigned : verifyWebhook now' body
                      (signedHeaders (signWebhookPayload now body secret)) secret
                    = if outsideWindow now' (now / 1000)
                      then Throw StaleOrFutureTimestamp else Normal tt).
  { destruct (getHeader_signedHeaders (signWebhookPayload now body secret)).
    now apply verifyWebhook_signed. }
  split; intros Hw; rewrite Hw in Hsigned.
  - unfold createToolHandler, signedRequest. cbn [method readBody headers].
    rewrite bool_decide_eq_true_2 by reflexivity. cbn [negb].
    now rewrite Hsigned.
  - assert (Hno : forall tr : list Z,
              tr = [400%Z] \/ tr = [] \/ tr = [422%Z] \/ tr = [200%Z] \/ tr = [500%Z] ->
              (401%Z ∉ tr) /\ (405%Z ∉ tr)).
    { intros tr [-> | [-> | [-> | [-> | ->]]]]; split; intros H;
        try (now apply not_elem_of_nil in H);
        apply list_elem_of_singleton in H; discriminate H. }
    run_cases tool secret process_env now' (signedRequest now body secret);
      try destruct Hval as (Hm & Hb & Hv & Hj & Hp & Hz);
      try (now contradiction Hm); try discriminate Hb;
      cbn [signedRequest readBody headers] in *; injection Hb as <-;
      try (rewrite Hsigned in Hv; discriminate Hv);
      rewrite E; cbn [fst statuses flat_map app];
      (split; [|split]); try (apply Hno; tauto);
      intros Hn; rewrite Hn in Hj; first [discriminate Hj | reflexivity].
Qed.

(** X10.  The answer 401 carries one of the five fixed messages of
    [verifyWebhook] and nothing else, and it is then the whole run. *)
Theorem unauthorized_body_is_fixed_message (now : Z) (req : IncomingMessage)
    (body : ResponseBody I R) :
  SendJson 401 body ∈ (createToolHandler tool secret process_env now req).1 ->
  createToolHandler tool secret process_env now req
    = ([SendJson 401 body], Normal tt)
  /\ (body = ErrorBody (errorMessage MissingSignatureHeader)
      \/ body = ErrorBody (errorMessage MissingTimestampHeader)
      \/ body = ErrorBody (errorMessage InvalidTimestamp)
      \/ body = ErrorBody (errorMessage StaleOrFutureTimestamp)
      \/ body = ErrorBody (errorMessage InvalidSignature)).
Proof.
  intros Hin.
  run_cases tool secret process_env now req; rewrite E in Hin |- *; elements Hin.
  injection Hin as ->. split; [reflexivity|].
  destruct (verifyWebhook_throw_cases _ _ _ _ _ Hv) as [H|[H|[H|[H|H]]]];
    rewrite <- H; cbn [errorMessage]; tauto.
Qed.

(** X20.  The run of the handler by outcome: 405 when the method is not
    POST; 400 when the body cannot be read; 401, with the message of the
    error, when verification fails; 400 when the verified body is not JSON;
    no response and a [TypeError] when it is the JSON text [null]; 422 with
    the issues when the schema rejects [params]; and, once [params]
    validated, the call of [execute], followed by 200 with [{success: true,
    result}] when it resolves and by 500 with [{success: false, error}]
    when it throws or rejects.  The responses 422 and 200 are sent when
    [JSON.stringify] takes the issues and the result; when it throws on
    them the head is written, nothing is sent, and the promise of the
    handler is rejected. *)
Theorem response_status_by_outcome (now : Z) (req : IncomingMessage) :
  let run := createToolHandler tool secret process_env now req in
  (method req <> Some (str "POST") ->
   run = ([SendJson 405 (ErrorBody (str "Method not allowed"))], Normal tt))
  /\ (method req = Some (str "POST") -> readBody req = None ->
      run = ([SendJson 400 (ErrorBody (str "Failed to read request body"))],
             Normal tt))
  /\ (forall rawBody,
        method req = Some (str "POST") -> readBody req = Some rawBody ->
        (forall e,
           verifyWebhook now rawBody (headers req) secret = Throw e ->
           exists message,
             e = WebhookVerificationError message
             /\ run = ([SendJson 401 (ErrorBody message)], Normal tt))
        /\ (verifyWebhook now rawBody (headers req) secret = Normal tt ->
            JSON_parse rawBody = None ->
            run = ([SendJson 400 (ErrorBody (str "Invalid JSON body"))], Normal tt))
        /\ (verifyWebhook now rawBody (headers req) secret = Normal tt ->
            JSON_parse rawBody = Some JNull ->
            run = ([], Throw (TypeError
                                (str "Cannot read properties of null (reading 'params')"))))
        /\ (forall payload raw,
              verifyWebhook now rawBody (headers req) secret = Normal tt ->
              JSON_parse rawBody = Some payload ->
              getProp payload (str "params") = Normal raw ->
              (forall issues,
                 safeParse (parameters tool) raw = ParseFailure issues ->
                 run = match stringifyThrows issues with
                       | None =>
                           ([SendJson 422
                               (InvalidParametersBody
                                  (str "Invalid tool parameters") issues)],
                            Normal tt)
                       | Some thrown => ([WriteHead 422], Throw thrown)
                       end)
              /\ (forall data,
                    safeParse (parameters tool) raw = ParseSuccess data ->
                    exists ctx,
                      contextFor tool process_env payload ctx
                      /\ (forall result,
                            execute tool data ctx = Resolved result ->
                            run = match stringifyThrows result with
                                  | None =>
                                      ([Execute data ctx;
                                        SendJson 200 (SuccessBody result)],
                                       Normal tt)
                                  | Some thrown =>
                                      ([Execute data ctx;
                                        WriteHead 200;
                                        ConsoleError (name tool)
                                          (log_requestId (ctx_log ctx))
                                          (ThrownError (errorMessage thrown))],
                                       Throw ERR_HTTP_HEADERS_SENT)
                                  end)
                      /\ (forall err,
                            execute tool data ctx = Rejected err ->
                            run = ([Execute data ctx;
                                    ConsoleError (name tool)
                                      (log_requestId (ctx_log ctx)) err;
                                    SendJson 500 (FailureBody (failureMessage err))],
                                   Normal tt))))).
Proof.
  cbv zeta. unfold createToolHandler, catchBlock, sendJson. cbn [bodyThrows].
  split; [|split; [|intros rawBody Hm Hb; split; [|split; [|split]]]].
  - intros Hm. now rewrite bool_decide_eq_false_2.
  - intros Hm Hb. now rewrite bool_decide_eq_true_2, Hb.
  - intros e Hv.
    destruct (verifyWebhook_throws_verification_error _ _ _ _ _ Hv) as [m ->].
    exists m. split; [reflexivity|].
    now rewrite bool_decide_eq_true_2, Hb, Hv.
  - intros Hv Hj. now rewrite bool_decide_eq_true_2, Hb, Hv, Hj.
  - intros Hv Hj. now rewrite bool_decide_eq_true_2, Hb, Hv, Hj.
  - intros payload raw Hv Hj Hp. rewrite bool_decide_eq_true_2, Hb, Hv, Hj, Hp by assumption.
    split.
    + intros issues ->. now destruct (stringifyThrows issues).
    + intros data ->.
      destruct (getProp payload (str "context")) as [spread|e1] eqn:Hc;
        [|destruct payload; discriminate].
      destruct (getProp payload (str "requestId")) as [rid|e2] eqn:Hr;
        [|destruct payload; discriminate].
      eexists {| ctx_spread := spread;
                 ctx_env := injectEnv process_env (env tool);
                 ctx_log := {| log_tool := name tool; log_requestId := rid |} |}.
      split; [now repeat split|].
      split; [intros result -> | intros err ->]; [|reflexivity].
      now destruct (stringifyThrows result).
Qed.

End HandlerRuns.

(** The run on the sample request is fulfilled, so it sent one response. *)
Lemma handler_answers_once_or_rejects_witness :
  exists status,
    statuses (createToolHandler sample_tool (str "secret") sample_process_env
                1700000000123 sample_request).1 = [status].
Proof.
  refine (proj1 (proj2 (handler_answers_once_or_rejects sample_tool (str "secret")
                          sample_process_env 1700000000123 sample_request)) _).
  vm_compute. reflexivity.
Defined.

(** The run on the sample request answers 200, so it called [execute]
    once. *)
Lemma execute_once_before_200_or_500_witness :
  length (executions (createToolHandler sample_tool (str "secret")
                        sample_process_env 1700000000123 sample_request).1)
  = 1%nat.
Proof.
  refine (proj1 (proj2 (execute_once_before_200_or_500 sample_tool (str "secret")
                          sample_process_env 1700000000123 sample_request)) _).
  left. vm_compute. apply list_elem_of_here.
Defined.

(** The sample request passes every stage: its run is the call of
    [execute] followed by the response 200 with the result. *)
Lemma response_status_by_outcome_witness :
  exists ctx,
    contextFor sample_tool sample_process_env
      (JObject [(str "tool", JString (str "echo_tool"));
                (str "params", JObject [(str "value", JNumber (str "21"))]);
                (str "context",
                 JObject [(str "agent", JObject [(str "name", JString (str "Atlas"))])]);
                (str "requestId", JString (str "req_test_123"))]) ctx
    /\ (forall result,
          execute sample_tool (str "21") ctx = Resolved result ->
          createToolHandler sample_tool (str "secret") sample_process_env
            1700000000123 sample_request
          = ([Execute (str "21") ctx; SendJson 200 (SuccessBody result)], Normal tt))
    /\ (forall err,
          execute sample_tool (str "21") ctx = Rejected err ->
          createToolHandler sample_tool (str "secret") sample_process_env
            1700000000123 sample_request
          = ([Execute (str "21") ctx;
              ConsoleError (name sample_tool) (log_requestId (ctx_log ctx)) err;
              SendJson 500 (FailureBody (failureMessage err))], Normal tt)).
Proof.
  refine (proj2 (proj2 (proj2 (proj2 (proj2 (proj2
            (response_status_by_outcome sample_tool (str "secret")
               sample_process_env 1700000000123 sample_request))
            _ _ _)))
            _ (Some (JObject [(str "value", JNumber (str "21"))])) _ _ _)
            (str "21") _).
  - reflexivity.
  - reflexivity.
  - vm_compute. reflexivity.
  - vm_compute. reflexivity.
  - vm_compute. reflexivity.
  - vm_compute. reflexivity.
Defined.

(** A POST request without headers is answered 401. *)
Lemma unauthorized_body_is_fixed_message_witness :
  createToolHandler sample_tool (str "secret") sample_process_env 1700000000123
    {| method := Some (str "POST"); headers := ∅; readBody := Some (str "{}") |}
  = ([SendJson 401 (ErrorBody (errorMessage MissingSignatureHeader))], Normal tt)
  /\ (ErrorBody (I:=list (list N)) (R:=json) (errorMessage MissingSignatureHeader)
        = ErrorBody (errorMessage MissingSignatureHeader)
      \/ ErrorBody (I:=list (list N)) (R:=json) (errorMessage MissingSignatureHeader)
         = ErrorBody (errorMessage MissingTimestampHeader)
      \/ ErrorBody (I:=list (list N)) (R:=json) (errorMessage MissingSignatureHeader)
         = ErrorBody (errorMessage InvalidTimestamp)
      \/ ErrorBody (I:=list (list N)) (R:=json) (errorMessage MissingSignatureHeader)
         = ErrorBody (errorMessage StaleOrFutureTimestamp)
      \/ ErrorBody (I:=list (list N)) (R:=json) (errorMessage MissingSignatureHeader)
         = ErrorBody (errorMessage InvalidSignature)).
Proof.
  refine (unauthorized_body_is_fixed_message sample_tool (str "secret")
            sample_process_env 1700000000123
            {| method := Some (str "POST"); headers := ∅; readBody := Some (str "{}") |}
            (ErrorBody (errorMessage MissingSignatureHeader)) _).
  vm_compute. apply list_elem_of_here.
Defined.

(** ** Agent configuration *)

(** A subdomain that matches the pattern has no [@]. *)
Lemma AGENT_EMAIL_REGEX_no_at (s : list N) :
  AGENT_EMAIL_REGEX_test s = true -> existsb (N.eqb 64) s = false.
Proof.
  destruct s as [|c r]; [discriminate|]. cbn [AGENT_EMAIL_REGEX_test existsb].
  intros H. apply andb_true_iff in H as [Hc Hr].
  apply andb_true_iff in Hc as [Hc _]. apply N.leb_le in Hc.
  destruct (N.eqb_spec 64 c) as [E|_]; [lia|]. cbn [orb].
  induction r as [|d r IH]; [reflexivity|].
  cbn [forallb existsb] in *. apply andb_true_iff in Hr as [Hd Hr].
  rewrite (IH Hr), orb_false_r. apply N.eqb_neq. intros <-.
  vm_compute in Hd. discriminate Hd.
Qed.

Section ConfigProperties.

Context {P I R : Type}.

Lemma brand_check (tool : FoTool P I R) :
  Nat.eqb (length (_brand tool)) 0
  || negb (bool_decide (_brand tool = str "FoTool")) = false
  <-> _brand tool = str "FoTool".
Proof.
  split.
  - intros H. apply orb_false_iff in H as [_ H].
    apply negb_false_iff, bool_decide_eq_true in H. exact H.
  - intros ->. reflexivity.
Qed.

(** The loop over the registrations passes exactly when each is in
    order. *)
Lemma checkRegistrations_ok (custom : list (CustomToolRegistration P I R)) :
  checkRegistrations custom = Normal tt <-> Forall registrationOk custom.
Proof.
  induction custom as [|reg rest IH]; cbn [checkRegistrations].
  - split; [constructor | reflexivity].
  - rewrite Forall_cons_iff, <- IH. unfold registrationOk.
    destruct (Nat.eqb (length (_brand (reg_tool reg))) 0
              || negb (bool_decide (_brand (reg_tool reg) = str "FoTool"))) eqn:Hb.
    { split; [discriminate|]. intros [(Hbrand & _) _].
      apply brand_check in Hbrand. congruence. }
    apply brand_check in Hb.
    destruct (startsWith (webhookUrl reg) (str "https://")); cbn [negb];
      [|split; [discriminate | intros [(_ & [=] & _) _]]].
    destruct (webhookSecret reg) as [|c s]; cbn [length Nat.eqb].
    { split; [discriminate | intros [(_ & _ & Hs) _]; now contradiction Hs]. }
    split; [intros ->; repeat split; try assumption; discriminate | tauto].
Qed.

Lemma checkRegistrations_throws_Error
    (custom : list (CustomToolRegistration P I R)) (e : JsError) :
  checkRegistrations custom = Throw e -> exists message, e = Error message.
Proof.
  induction custom as [|reg rest IH]; cbn [checkRegistrations]; [discriminate|].
  repeat match goal with
  | |- context [if ?b then _ else _] => destruct b
  end; try (intros [= <-]; eexists; reflexivity). exact IH.
Qed.

Lemma defineConfig_agent_ok (input : DefineConfigInput P I R) :
  agentOk (input_agent input) ->
  defineConfig input =
    match checkRegistrations (inputCustom input) with
    | Throw e => Throw e
    | Normal _ =>
        Normal
          {| config_agent := input_agent input;
             config_tools :=
               {| tools_email :=
                    Some (default true (input_tools input ≫= tools_email));
                  tools_calendar :=
                    Some (default true (input_tools input ≫= tools_calendar));
                  tools_browser :=
                    Some (default false (input_tools input ≫= tools_browser));
                  tools_custom := Some (inputCustom input) |};
             config_instructions := input_instructions input;
             config_env := Some (default [] (input_env input));
             config_brand := str "FoConfig" |}
    end.
Proof.
  intros (Hname & Hre & Hres). unfold defineConfig, inputCustom.
  destruct (Nat.eqb_spec (length (trim (agent_name (input_agent input)))) 0) as [Hz|_].
  { apply length_zero_iff_nil, trim_nil_iff in Hz. congruence. }
  rewrite (AGENT_EMAIL_REGEX_no_at _ Hre), Hre. cbn [negb].
  rewrite bool_decide_eq_false_2 by exact Hres.
  destruct (input_tools input) as [[e c b cu]|]; cbn; destruct (input_env input);
    reflexivity.
Qed.

Lemma defineConfig_agent_bad (input : DefineConfigInput P I R) :
  ~ agentOk (input_agent input) ->
  exists message, defineConfig input = Throw (Error message).
Proof.
  intros Hbad. unfold defineConfig.
  destruct (Nat.eqb_spec (length (trim (agent_name (input_agent input)))) 0) as [Hz|Hz];
    [eauto|].
  destruct (existsb (N.eqb 64) (agent_email (input_agent input))); [eauto|].
  destruct (AGENT_EMAIL_REGEX_test (agent_email (input_agent input))) eqn:Hre;
    cbn [negb]; [|eauto].
  case_bool_decide as Hres; [eauto|].
  exfalso. apply Hbad. repeat split; try assumption.
  destruct (forallb isWhiteSpace _) eqn:E; [|reflexivity].
  apply trim_nil_iff in E. rewrite E in Hz. now contradiction Hz.
Qed.

(** When [defineConfig] returns. *)
Lemma defineConfig_accepts (input : DefineConfigInput P I R) :
  (exists config, defineConfig input = Normal config)
  <-> agentOk (input_agent input) /\ Forall registrationOk (inputCustom input).
Proof.
  split.
  - intros [config Hc].
    assert (Ha : agentOk (input_agent input)).
    { destruct (forallb isWhiteSpace (agent_name (input_agent input))) eqn:E1;
      [|destruct (AGENT_EMAIL_REGEX_test (agent_email (input_agent input))) eqn:E2;
        [|];
        [destruct (decide (agent_email (input_agent input) ∈ RESERVED_NAMES)) as [E3|E3];
         [|now repeat split] |]];
      exfalso.
      - destruct (defineConfig_agent_bad input) as [m Hm]; [|congruence].
        intros (H & _). congruence.
      - destruct (defineConfig_agent_bad input) as [m Hm]; [|congruence].
        intros (_ & _ & H). contradiction.
      - destruct (defineConfig_agent_bad input) as [m Hm]; [|congruence].
        intros (_ & H & _). congruence. }
    split; [exact Ha|]. rewrite (defineConfig_agent_ok input Ha) in Hc.
    apply checkRegistrations_ok.
    destruct (checkRegistrations (inputCustom input)) as [[]|e]; [reflexivity|discriminate].
  - intros [Ha Hr]. rewrite (defineConfig_agent_ok input Ha).
    apply checkRegistrations_ok in Hr. rewrite Hr. eauto.
Qed.

(** X11.  [defineConfig] accepts an input exactly when the agent name is
    not blank, the subdomain matches [^[a-z][a-z0-9-]*$] and is not a
    reserved name, and every custom registration has a tool branded
    [FoTool], a webhook URL that starts with [https://] and a non-empty
    secret.  Nothing else is checked: the test for [@] only chooses the
    message. *)
Theorem defineConfig_accepts_iff (input : DefineConfigInput P I R) :
  (exists config, defineConfig input = Normal config)
  <-> agentOk (input_agent input) /\ Forall registrationOk (inputCustom input).
Proof. apply defineConfig_accepts. Qed.

(** X12.  What [defineConfig] returns has every built-in tool flag set
    (email and calendar on and browser off unless the input says
    otherwise), the custom list and [env] present (empty by default), the
    agent and instructions of the input and the brand [FoConfig]; given to
    [defineConfig] again it is returned unchanged. *)
Theorem defineConfig_fills_defaults_idempotent
    (input : DefineConfigInput P I R) (config : FoConfig P I R) :
  defineConfig input = Normal config ->
  config_agent config = input_agent input
  /\ config_instructions config = input_instructions input
  /\ config_brand config = str "FoConfig"
  /\ tools_email (config_tools config)
      = Some (default true (input_tools input ≫= tools_email))
  /\ tools_calendar (config_tools config)
      = Some (default true (input_tools input ≫= tools_calendar))
  /\ tools_browser (config_tools config)
      = Some (default false (input_tools input ≫= tools_browser))
  /\ tools_custom (config_tools config) = Some (inputCustom input)
  /\ config_env config = Some (default [] (input_env input))
  /\ defineConfig (asInput config) = Normal config.
Proof.
  intros Hc.
  destruct (proj1 (defineConfig_accepts input) (ex_intro _ _ Hc)) as [Ha Hr].
  rewrite (defineConfig_agent_ok input Ha) in Hc.
  apply checkRegistrations_ok in Hr. rewrite Hr in Hc. injection Hc as <-.
  cbn. repeat split.
  rewrite defineConfig_agent_ok by exact Ha.
  unfold inputCustom at 1. cbn. rewrite Hr. reflexivity.
Qed.

(** X13.  A tool that [defineTool] returned always passes the brand check
    of [defineConfig]: registered with an [https://] URL and a non-empty
    secret under an agent that is in order, it is accepted, alone or after
    registrations that are in order. *)
Theorem defineTool_result_registers
    (cfg : DefineToolConfig P I R) (tool : FoTool P I R)
    (input : DefineConfigInput P I R) (before : list (CustomToolRegistration P I R))
    (url secret : list N) :
  defineTool cfg = Normal tool ->
  agentOk (input_agent input) ->
  Forall registrationOk before ->
  inputCustom input
    = before ++ [{| reg_tool := tool; webhookUrl := url; webhookSecret := secret |}] ->
  startsWith url (str "https://") = true ->
  secret <> [] ->
  exists config,
    defineConfig input = Normal config
    /\ tools_custom (config_tools config) = Some (inputCustom input).
Proof.
  intros Hd Ha Hb Hc Hu Hs.
  assert (Hbrand : _brand tool = str "FoTool").
  { revert Hd. unfold defineTool.
    repeat match goal with |- context [if ?b then _ else _] => destruct b end;
      intros [= <-]. reflexivity. }
  rewrite (defineConfig_agent_ok input Ha).
  assert (Hr : Forall registrationOk (inputCustom input)).
  { rewrite Hc. apply Forall_app. split; [exact Hb|].
    constructor; [|constructor]. now repeat split. }
  apply checkRegistrations_ok in Hr. rewrite Hr. eauto.
Qed.

(** X14.  When the agent is in order, [defineConfig] throws for the first
    custom registration that is not: the error is the one that
    registration alone gives, whatever follows it. *)
Theorem defineConfig_first_bad_registration
    (input : DefineConfigInput P I R)
    (good rest : list (CustomToolRegistration P I R))
    (bad : CustomToolRegistration P I R) :
  agentOk (input_agent input) ->
  inputCustom input = good ++ bad :: rest ->
  Forall registrationOk good ->
  ~ registrationOk bad ->
  exists message,
    checkRegistrations [bad] = Throw (Error message)
    /\ defineConfig input = Throw (Error message).
Proof.
  intros Ha Hc Hg Hb. rewrite (defineConfig_agent_ok input Ha), Hc.
  assert (Hone : exists message, checkRegistrations [bad] = Throw (Error message)).
  { destruct (checkRegistrations [bad]) as [[]|e] eqn:E.
    - apply checkRegistrations_ok, Forall_inv in E. contradiction.
    - destruct (checkRegistrations_throws_Error _ _ E) as [m ->]. eauto. }
  destruct Hone as [m Hm]. exists m. split; [exact Hm|].
  assert (Happ : checkRegistrations (good ++ bad :: rest) = Throw (Error m)).
  { clear Hc. induction Hg as [|g good Hgk _ IH]; cbn [app].
    - revert Hm. cbn [checkRegistrations].
      repeat match goal with |- context [if ?b then _ else _] => destruct b end;
        intros [= <-]; reflexivity.
    - cbn [checkRegistrations]. destruct Hgk as (Hbr & Hu & Hs).
      rewrite (proj2 (brand_check _) Hbr), Hu. cbn [negb].
      destruct (webhookSecret g); [now contradiction Hs|]. exact IH. }
  now rewrite Happ.
Qed.

End ConfigProperties.

(** The sample input is accepted, with its defaults filled in. *)
Lemma defineConfig_fills_defaults_idempotent_witness :
  exists config,
    defineConfig sample_input = Normal config
    /\ tools_email (config_tools config) = Some true
    /\ tools_calendar (config_tools config) = Some false
    /\ tools_browser (config_tools config) = Some false
    /\ config_env config = Some []
    /\ defineConfig (asInput config) = Normal config.
Proof.
  destruct (defineConfig sample_input) as [config|e] eqn:E; [|discriminate E].
  exists config.
  destruct (defineConfig_fills_defaults_idempotent sample_input config E)
    as (_ & _ & _ & He & Hc & Hb & _ & Hv & Hi).
  now repeat split.
Defined.

(** The sample tool, which [defineTool] returns, registers. *)
Lemma defineTool_result_registers_witness :
  exists config,
    defineConfig sample_input = Normal config
    /\ tools_custom (config_tools config) = Some (inputCustom sample_input).
Proof.
  refine (defineTool_result_registers
            (sample_config (str "echo_tool") (str "Echoes the input")) sample_tool
            sample_input [] (str "https://my-app.com/tools/echo_tool") (str "secret")
            _ _ _ _ _ _).
  - reflexivity.
  - repeat split. intros H. vm_compute in H.
    repeat (apply elem_of_cons in H as [H|H]; [discriminate H|]).
    now apply not_elem_of_nil in H.
  - constructor.
  - reflexivity.
  - reflexivity.
  - discriminate.
Defined.

(** A registration with an [http://] URL after the sample registration. *)
Lemma defineConfig_first_bad_registration_witness :
  exists message,
    checkRegistrations
      [{| reg_tool := sample_tool;
          webhookUrl := str "http://insecure.com/tools/my_tool";
          webhookSecret := str "secret" |}] = Throw (Error message)
    /\ defineConfig
         {| input_agent := {| agent_name := str "Atlas"; agent_email := str "atlas" |};
            input_tools :=
              Some {| tools_email := None; tools_calendar := None;
                      tools_browser := None;
                      tools_custom :=
                        Some [sample_registration;
                              {| reg_tool := sample_tool;
                                 webhookUrl := str "http://insecure.com/tools/my_tool";
                                 webhookSecret := str "secret" |};
                              sample_registration] |};
            input_instructions := None;
            input_env := None |} = Throw (Error message).
Proof.
  refine (defineConfig_first_bad_registration _ [sample_registration]
            [sample_registration] _ _ _ _ _).
  - repeat split. intros H. vm_compute in H.
    repeat (apply elem_of_cons in H as [H|H]; [discriminate H|]).
    now apply not_elem_of_nil in H.
  - reflexivity.
  - constructor; [|constructor]. repeat split. discriminate.
  - intros (_ & H & _). discriminate H.
Defined.

(** ** Declared environment variables *)

Lemma falsy_process_env_get (process_env : gmap (list N) (list N)) (k : list N) :
  falsy (process_env_get process_env k) = true
  <-> process_env !! k = Some []
      \/ (process_env !! k = None /\ k ∉ OBJECT_PROTOTYPE_NAMES).
Proof.
  unfold process_env_get. destruct (process_env !! k) as [[|c r]|].
  - cbn. split; [tauto | reflexivity].
  - cbn. split; [discriminate | intros [H|[H _]]; discriminate H].
  - case_bool_decide as Hin; cbn; split; intros H;
      try reflexivity; try discriminate H.
    + destruct H as [H|[_ H]]; [discriminate H | contradiction].
    + right. split; [reflexivity | assumption].
Qed.

(** Of four required names that are all unset, the three that
    [Object.prototype] defines are not reported. *)
Example checkEnvVars_known :
  checkEnvVars sample_process_env
    [str "constructor"; str "UNSET_X"; str "toString"; str "__proto__"]
  = [str "UNSET_X"].
Proof. vm_compute. reflexivity. Qed.

(** X15.  [checkEnvVars] reports exactly the required variables that are
    set to the empty string, or that are unset under a name
    [Object.prototype] does not define: an unset variable named
    [constructor] or [toString] is not reported.  A required variable set
    to the empty string is reported missing, although the tool handler
    passes it on, bound to the empty string. *)
Theorem checkEnvVars_reports_unset_or_empty
    (process_env : gmap (list N) (list N)) (required : list (list N))
    (k : list N) :
  (k ∈ checkEnvVars process_env required
   <-> k ∈ required
       /\ (process_env !! k = Some []
           \/ (process_env !! k = None /\ k ∉ OBJECT_PROTOTYPE_NAMES)))
  /\ (k ∈ required -> process_env !! k = Some [] -> k <> str "__proto__" ->
      k ∈ checkEnvVars process_env required
      /\ injectEnv process_env required !! k = Some (EnvString [])).
Proof.
  assert (Hiff : k ∈ checkEnvVars process_env required
                 <-> k ∈ required
                     /\ (process_env !! k = Some []
                         \/ (process_env !! k = None
                             /\ k ∉ OBJECT_PROTOTYPE_NAMES))).
  { unfold checkEnvVars. rewrite list_elem_of_filter, falsy_process_env_get. tauto. }
  split; [exact Hiff|]. intros Hk He Hp. split.
  - apply Hiff. tauto.
  - rewrite injectEnv_lookup, bool_decide_eq_true_2 by tauto.
    unfold process_env_get. now rewrite He.
Qed.

(** The sample environment with [CRM_REGION] set to the empty string:
    of [constructor], [CRM_REGION] and [UNSET_X] the first is not reported
    missing, and [CRM_REGION] is handed on as the empty string. *)
Lemma checkEnvVars_reports_unset_or_empty_witness :
  checkEnvVars (<[str "CRM_REGION" := []]> sample_process_env)
    [str "constructor"; str "CRM_REGION"; str "UNSET_X"]
  = [str "CRM_REGION"; str "UNSET_X"]
  /\ (str "CRM_REGION"
        ∈ checkEnvVars (<[str "CRM_REGION" := []]> sample_process_env)
            [str "constructor"; str "CRM_REGION"; str "UNSET_X"]
      /\ injectEnv (<[str "CRM_REGION" := []]> sample_process_env)
           [str "constructor"; str "CRM_REGION"; str "UNSET_X"] !! str "CRM_REGION"
         = Some (EnvString [])).
Proof.
  split; [vm_compute; reflexivity|].
  refine (proj2 (checkEnvVars_reports_unset_or_empty
                   (<[str "CRM_REGION" := []]> sample_process_env)
                   [str "constructor"; str "CRM_REGION"; str "UNSET_X"]
                   (str "CRM_REGION")) _ _ _).
  - apply list_elem_of_further, list_elem_of_here.
  - vm_compute. reflexivity.
  - discriminate.
Defined.

Section DeclaredEnv.

Context {P I R : Type}.
Context {stringifyIssues : JSONStringify I} {stringifyResult : JSONStringify R}.

(** X16.  When [checkEnvVars] reports nothing missing for the variables a
    tool declares, every declared variable whose name [Object.prototype]
    does not define is in the [env] of the context [execute] is called
    with, bound to its non-empty ambient value. *)
Theorem declared_env_present_when_none_missing
    (tool : FoTool P I R) (secret : list N)
    (process_env : gmap (list N) (list N)) (now : Z) (req : IncomingMessage)
    (params : P) (ctx : ToolContext) (k : list N) :
  checkEnvVars process_env (env tool) = [] ->
  Execute params ctx ∈ (createToolHandler tool secret process_env now req).1 ->
  k ∈ env tool ->
  k ∉ OBJECT_PROTOTYPE_NAMES ->
  exists v,
    ctx_env ctx !! k = Some (EnvString v) /\ v <> [] /\ process_env !! k = Some v.
Proof.
  intros Hnone Hin Hk Hproto.
  destruct (execute_event_validated tool secret process_env now req params ctx Hin)
    as (_ & payload & _ & _ & (_ & -> & _)).
  assert (Hne : k <> str "__proto__").
  { intros ->. apply Hproto. vm_compute.
    do 10 apply list_elem_of_further. apply list_elem_of_here. }
  rewrite injectEnv_lookup, bool_decide_eq_true_2 by tauto.
  assert (Hnot : k ∉ checkEnvVars process_env (env tool)).
  { rewrite Hnone. apply not_elem_of_nil. }
  unfold checkEnvVars in Hnot.
  rewrite list_elem_of_filter, falsy_process_env_get in Hnot.
  unfold process_env_get.
  destruct (process_env !! k) as [[|c v]|] eqn:E.
  - exfalso. apply Hnot. tauto.
  - exists (c :: v). repeat split. discriminate.
  - exfalso. apply Hnot. tauto.
Qed.

(** X21.  The [env] of the context [execute] is called with has no key
    outside the list the tool declared, whatever the ambient environment
    defines.  A declared name other than [__proto__] is a key exactly
    when [process.env] answers it: bound to the value of the variable when
    it is set, left out when it is unset and [Object.prototype] does not
    define the name, and bound to the inherited member when it is unset
    and [Object.prototype] defines it.  [__proto__] is never a key. *)
Theorem context_env_own_keys
    (tool : FoTool P I R) (secret : list N)
    (process_env : gmap (list N) (list N)) (now : Z) (req : IncomingMessage)
    (params : P) (ctx : ToolContext) :
  Execute params ctx ∈ (createToolHandler tool secret process_env now req).1 ->
  forall k : list N,
    (k ∉ env tool -> ctx_env ctx !! k = None)
    /\ (k = str "__proto__" -> ctx_env ctx !! k = None)
    /\ (k ∈ env tool -> k <> str "__proto__" ->
        ctx_env ctx !! k
        = match process_env !! k with
          | Some v => Some (EnvString v)
          | None => if bool_decide (k ∈ OBJECT_PROTOTYPE_NAMES)
                    then Some (EnvInherited k) else None
          end).
Proof.
  intros Hin k.
  destruct (execute_event_validated tool secret process_env now req params ctx Hin)
    as (_ & payload & _ & _ & (_ & -> & _)).
  rewrite injectEnv_lookup. repeat split.
  - intros Hk. rewrite bool_decide_eq_false_2; [reflexivity | tauto].
  - intros Hk. rewrite bool_decide_eq_false_2; [reflexivity | tauto].
  - intros Hk Hp. rewrite bool_decide_eq_true_2 by tauto. reflexivity.
Qed.

End DeclaredEnv.

(** With both declared variables set, the sample run hands both on. *)
Lemma declared_env_present_when_none_missing_witness :
  exists v,
    injectEnv sample_full_env (env sample_tool) !! str "CRM_REGION"
    = Some (EnvString v)
    /\ v <> [] /\ sample_full_env !! str "CRM_REGION" = Some v.
Proof.
  refine (declared_env_present_when_none_missing sample_tool (str "secret")
            sample_full_env 1700000000123 sample_request (str "21")
            {| ctx_spread := ctx_spread sample_context;
               ctx_env := injectEnv sample_full_env (env sample_tool);
               ctx_log := ctx_log sample_context |}
            (str "CRM_REGION") _ _ _ _).
  - vm_compute. reflexivity.
  - vm_compute. apply list_elem_of_here.
  - vm_compute. apply list_elem_of_further, list_elem_of_here.
  - vm_compute. intros H.
    repeat (apply elem_of_cons in H as [H|H]; [discriminate H|]).
    now apply not_elem_of_nil in H.
Defined.

(** In the run on the sample request the context has the declared
    variable that is set, and neither the declared one that is unset nor
    the undeclared one. *)
Lemma context_env_own_keys_witness :
  ctx_env sample_context !! str "SALESFORCE_TOKEN" = Some (EnvString (str "tok_123"))
  /\ ctx_env sample_context !! str "CRM_REGION" = None
  /\ ctx_env sample_context !! str "PATH" = None.
Proof.
  assert (Hin : Execute (str "21") sample_context
                ∈ (createToolHandler sample_tool (str "secret") sample_process_env
                     1700000000123 sample_request).1).
  { vm_compute. apply list_elem_of_here. }
  pose proof (context_env_own_keys sample_tool (str "secret")
                sample_process_env 1700000000123 sample_request
                (str "21") sample_context Hin) as Henv.
  split; [|split].
  - rewrite (proj2 (proj2 (Henv (str "SALESFORCE_TOKEN")))).
    + vm_compute. reflexivity.
    + apply list_elem_of_here.
    + discriminate.
  - rewrite (proj2 (proj2 (Henv (str "CRM_REGION")))).
    + vm_compute. reflexivity.
    + apply list_elem_of_further, list_elem_of_here.
    + discriminate.
  - apply (proj1 (Henv (str "PATH"))). vm_compute. intros H.
    repeat (apply elem_of_cons in H as [H|H]; [discriminate H|]).
    now apply not_elem_of_nil in H.
Defined.

(** ** Tools and runs, once more *)

Section ToolsAgain.

Context {P I R : Type}.
Context {stringifyIssues : JSONStringify I} {stringifyResult : JSONStringify R}.

(** X17.  The tool [defineTool] returns carries the name, description,
    schema and [execute] of the configuration, its [env] or the empty
    list, and the brand [FoTool]; given to [defineTool] again it is
    returned unchanged. *)
Theorem defineTool_keeps_fields_idempotent
    (config : DefineToolConfig P I R) (tool : FoTool P I R) :
  defineTool config = Normal tool ->
  name tool = cfg_name config
  /\ description tool = cfg_description config
  /\ parameters tool = cfg_parameters config
  /\ execute tool = cfg_execute config
  /\ env tool = default [] (cfg_env config)
  /\ _brand tool = str "FoTool"
  /\ defineTool (asToolConfig tool) = Normal tool.
Proof.
  intros Hd.
  pose proof (proj1 (defineTool_accepts config) (ex_intro _ _ Hd))
    as (Hre & Hlen & Hblank & Hdl).
  assert (Ht : tool =
            {| name := cfg_name config; description := cfg_description config;
               parameters := cfg_parameters config;
               env := default [] (cfg_env config);
               execute := cfg_execute config; _brand := str "FoTool" |}).
  { revert Hd. unfold defineTool.
    repeat match goal with |- context [if ?b then _ else _] => destruct b end;
      intros [= <-]. now destruct (cfg_env config). }
  subst tool. cbn [name description parameters execute env _brand].
  repeat split.
  destruct (proj2 (defineTool_accepts
                     (asToolConfig
                        {| name := cfg_name config;
                           description := cfg_description config;
                           parameters := cfg_parameters config;
                           env := default [] (cfg_env config);
                           execute := cfg_execute config;
                           _brand := str "FoTool" |})))
    as [tool' Ht']; [now repeat split|].
  rewrite Ht'. f_equal. revert Ht'. unfold defineTool.
  repeat match goal with |- context [if ?b then _ else _] => destruct b end;
    intros [= <-]. reflexivity.
Qed.

(** X18.  Whatever tells something about the body beyond its signature
    (the answer 400 for a body that is not JSON, 422 with the issues of the
    schema, 200 and 500) is sent only for a body whose signature was
    verified. *)
Theorem body_answers_only_after_verification
    (tool : FoTool P I R) (secret : list N)
    (process_env : gmap (list N) (list N)) (now : Z) (req : IncomingMessage)
    (status : Z) (body : ResponseBody I R) :
  SendJson status body ∈ (createToolHandler tool secret process_env now req).1 ->
  body = ErrorBody (str "Invalid JSON body") \/ status = 422%Z
  \/ status = 200%Z \/ status = 500%Z ->
  exists rawBody,
    method req = Some (str "POST")
    /\ readBody req = Some rawBody
    /\ verifyWebhook now rawBody (headers req) secret = Normal tt.
Proof.
  intros Hin Hkind.
  run_cases tool secret process_env now req;
    try destruct Hval as (Hm & Hb & Hv & _);
    rewrite E in Hin; elements Hin;
    try (now exists rawBody);
    injection Hin as -> ->; exfalso.
  - destruct Hkind as [H|[H|[H|H]]]; try discriminate H.
  - destruct Hkind as [H|[H|[H|H]]]; try discriminate H.
  - destruct (verifyWebhook_throw_cases _ _ _ _ _ Hv) as [H|[H|[H|[H|H]]]];
      injection H as ->;
      destruct Hkind as [H|[H|[H|H]]]; try discriminate H;
      vm_compute in H; discriminate H.
Qed.

End ToolsAgain.

(** The sample tool is what [defineTool] returns, and stays so. *)
Lemma defineTool_keeps_fields_idempotent_witness :
  name sample_tool = str "echo_tool"
  /\ description sample_tool = str "Echoes the input"
  /\ parameters sample_tool = sample_schema
  /\ execute sample_tool
     = cfg_execute (sample_config (str "echo_tool") (str "Echoes the input"))
  /\ env sample_tool = [str "SALESFORCE_TOKEN"; str "CRM_REGION"]
  /\ _brand sample_tool = str "FoTool"
  /\ defineTool (asToolConfig sample_tool) = Normal sample_tool.
Proof.
  exact (defineTool_keeps_fields_idempotent
           (sample_config (str "echo_tool") (str "Echoes the input")) sample_tool
           eq_refl).
Defined.

(** The answer 422 of the sample handler to a signed request with a
    wrong parameter came after verification. *)
Lemma body_answers_only_after_verification_witness :
  exists rawBody,
    method (signedRequest 1700000000123 (strq "{'params':{'value':'x'}}") (str "secret"))
      = Some (str "POST")
    /\ readBody (signedRequest 1700000000123 (strq "{'params':{'value':'x'}}") (str "secret"))
       = Some rawBody
    /\ verifyWebhook 1700000000123 rawBody
         (headers (signedRequest 1700000000123 (strq "{'params':{'value':'x'}}")
                     (str "secret")))
         (str "secret") = Normal tt.
Proof.
  refine (body_answers_only_after_verification sample_tool (str "secret")
            sample_process_env 1700000000123
            (signedRequest 1700000000123 (strq "{'params':{'value':'x'}}") (str "secret"))
            422 (InvalidParametersBody (str "Invalid tool parameters")
                   [str "Expected number"]) _ _).
  - vm_compute. apply list_elem_of_here.
  - tauto.
Defined.

(** ** The ambient environment and the handler *)

Lemma injectEnv_agree (env1 env2 : gmap (list N) (list N))
    (declared : list (list N)) :
  (forall k, k ∈ declared -> env1 !! k = env2 !! k) ->
  injectEnv env1 declared = injectEnv env2 declared.
Proof.
  intros Hagree. apply map_eq. intros k. rewrite !injectEnv_lookup.
  case_bool_decide as Hk; [|reflexivity].
  unfold process_env_get. now rewrite (Hagree k (proj1 Hk)).
Qed.

(** X19.  What the handler itself reads of [process.env] are the
    variables the tool declares: under two ambient environments that agree
    on the declared names, whatever else they define, [execute] is called
    in both runs or in neither, with the same parameters and the same
    context, and a run that does not call it is the same under both. *)
Theorem handler_reads_only_declared_env {P I R : Type}
    {stringifyIssues : JSONStringify I} {stringifyResult : JSONStringify R}
    (tool : FoTool P I R) (secret : list N)
    (env1 env2 : gmap (list N) (list N)) (now : Z) (req : IncomingMessage) :
  (forall k, k ∈ env tool -> env1 !! k = env2 !! k) ->
  executions (createToolHandler tool secret env1 now req).1
  = executions (createToolHandler tool secret env2 now req).1
  /\ (executions (createToolHandler tool secret env1 now req).1 = [] ->
      createToolHandler tool secret env1 now req
      = createToolHandler tool secret env2 now req).
Proof.
  intros Hagree. unfold createToolHandler.
  now rewrite (injectEnv_agree env1 env2 (env tool) Hagree).
Qed.

(** The sample run calls [execute] alike when an undeclared variable
    changes. *)
Lemma handler_reads_only_declared_env_witness :
  executions (createToolHandler sample_tool (str "secret") sample_process_env
                1700000000123 sample_request).1
  = executions (createToolHandler sample_tool (str "secret")
                  (<[str "PATH" := str "/opt/bin"]> sample_process_env)
                  1700000000123 sample_request).1
  /\ (executions (createToolHandler sample_tool (str "secret") sample_process_env
                    1700000000123 sample_request).1 = [] ->
      createToolHandler sample_tool (str "secret") sample_process_env
        1700000000123 sample_request
      = createToolHandler sample_tool (str "secret")
          (<[str "PATH" := str "/opt/bin"]> sample_process_env)
          1700000000123 sample_request).
Proof.
  refine (handler_reads_only_declared_env sample_tool (str "secret")
            sample_process_env (<[str "PATH" := str "/opt/bin"]> sample_process_env)
            1700000000123 sample_request _).
  intros k Hk. rewrite lookup_insert_ne; [reflexivity|].
  intros <-. vm_compute in Hk.
  repeat (apply elem_of_cons in Hk as [Hk|Hk]; [discriminate Hk|]).
  now apply not_elem_of_nil in Hk.
Defined.
